(** * linux-control: the websocket agent of [client/main.py]

    A shallow embedding of class [WSClient]: the connection life cycle
    ([connect], [run], [keep_alive]) and the two dispatchers
    ([processQuery], [processCommand]), together with the Python
    primitives they rest on.

    Conventions of the embedding.
    - A Python [str] is a [string]; a character is a code point below 256
      (the Latin-1 range), which is where [ascii] lives.  Code points
      above 255 are outside the model.
    - A Python [float] is an IEEE 754 binary64, taken from the standard
      library's [spec_float] with precision 53 and maximal exponent 1024.
    - Calls that leave the process (D-Bus, PulseAudio, psutil, the locate
      database, the websocket) read their answers from a [Host] record and
      leave an [Event] in the trace of the computation.
    - A computation of the client is a trace together with either a value
      or the exception that ended it. *)

From Stdlib Require Import ZArith List String Ascii Bool Lia.
From Stdlib Require Import Floats.SpecFloat Numbers.DecimalString.
Import ListNotations.

Open Scope string_scope.
Open Scope Z_scope.

(* ================================================================== *)
(** ** Python primitives *)
(* ================================================================== *)

Module Py.

(** *** Characters and strings *)

Definition code (c : ascii) : Z := Z.of_N (N_of_ascii c).
Definition chr (z : Z) : ascii := ascii_of_N (Z.to_N z).

(** [str.isspace] on one character, for code points below 256:
    TAB..CR, FS..US, SPACE, NEL and NBSP. *)
Definition isspace (c : ascii) : bool :=
  let n := code c in
  ((9 <=? n) && (n <=? 13)) || ((28 <=? n) && (n <=? 32))
  || (n =? 133) || (n =? 160).

(** The characters [int] skips around a literal: the ASCII ones that C's
    [isspace] knows, and the non-ASCII spaces, which [int] first
    rewrites to a blank.  FS..US are spaces for [strip], not here. *)
Definition int_isspace (c : ascii) : bool :=
  let n := code c in
  ((9 <=? n) && (n <=? 13)) || (n =? 32) || (n =? 133) || (n =? 160).

Definition isdigit (c : ascii) : bool :=
  let n := code c in (48 <=? n) && (n <=? 57).

Definition digit_value (c : ascii) : Z := code c - 48.

(** [str.lower] on one character below 256: A..Z and the accented
    capitals (all of 0xC0..0xDE but the multiplication sign). *)
Definition lower_char (c : ascii) : ascii :=
  let n := code c in
  if ((65 <=? n) && (n <=? 90))
     || ((192 <=? n) && (n <=? 222) && negb (n =? 215))
  then chr (n + 32) else c.

Fixpoint lower (s : string) : string :=
  match s with
  | EmptyString => EmptyString
  | String c s' => String (lower_char c) (lower s')
  end.

Fixpoint lstrip (s : string) : string :=
  match s with
  | String c s' => if isspace c then lstrip s' else s
  | EmptyString => EmptyString
  end.

(** [rstrip]: a character is kept when it is not a space or when
    something is kept after it. *)
Fixpoint rstrip (s : string) : string :=
  match s with
  | EmptyString => EmptyString
  | String c s' =>
      match rstrip s' with
      | EmptyString => if isspace c then EmptyString else String c EmptyString
      | r => String c r
      end
  end.

(** [s.strip()] *)
Definition strip (s : string) : string := rstrip (lstrip s).

(** [s.replace(old, "")] for a one-character [old]: every occurrence
    goes. *)
Fixpoint remove_char (old : ascii) (s : string) : string :=
  match s with
  | EmptyString => EmptyString
  | String c s' =>
      if Ascii.eqb c old then remove_char old s'
      else String c (remove_char old s')
  end.

(** [needle in hay] on two strings. *)
Fixpoint contains (needle hay : string) : bool :=
  if String.prefix needle hay then true
  else match hay with
       | EmptyString => false
       | String _ hay' => contains needle hay'
       end.

(** [bool(s)] *)
Definition nonempty (s : string) : bool :=
  match s with EmptyString => false | _ => true end.

(** *** Integers: [int(s)] and [str(n)] *)

(** The digit part of a literal: digits, with single underscores only
    between two digits.  [acc] is the value read so far, [prev_us] says
    that the previous character was an underscore.  The result is the
    value and what follows the digits; [None] for a doubled or a
    trailing underscore. *)
Fixpoint int_digits (acc : Z) (prev_us : bool) (s : string)
  : option (Z * string) :=
  match s with
  | String c s' =>
      if isdigit c then int_digits (10 * acc + digit_value c) false s'
      else if Ascii.eqb c "_" then
             if prev_us then None else int_digits acc true s'
           else if prev_us then None else Some (acc, s)
  | EmptyString => if prev_us then None else Some (acc, EmptyString)
  end.

Fixpoint skip_int_space (s : string) : string :=
  match s with
  | String c s' => if int_isspace c then skip_int_space s' else s
  | EmptyString => EmptyString
  end.

(** [int(s)] in base ten; [None] is [ValueError].  The grammar is that
    of CPython 3.6 and later, where one underscore may stand between two
    digits; the limit later versions put on the number of digits is not
    modelled. *)
Definition int (s : string) : option Z :=
  let s1 := skip_int_space s in
  let '(neg, s2) :=
    match s1 with
    | String "+" r => (false, r)
    | String "-" r => (true, r)
    | _ => (false, s1)
    end in
  match s2 with
  | String c _ =>
      if isdigit c then
        match int_digits 0 false s2 with
        | Some (v, rest) =>
            match skip_int_space rest with
            | EmptyString => Some (if neg then - v else v)
            | _ => None
            end
        | None => None
        end
      else None
  | EmptyString => None
  end.

(** [str(n)] for a natural number. *)
Definition str_of_N (n : Z) : string :=
  NilZero.string_of_uint (N.to_uint (Z.to_N n)).

(** [n] printed on at least two digits, as [%m], [%d], [%H], [%M] and
    [%S] of [strftime] do. *)
Definition pad2 (n : Z) : string :=
  if n <? 10 then "0" ++ str_of_N n else str_of_N n.

(** *** Floats *)

Definition float := spec_float.

Definition prec : Z := 53.
Definition emax : Z := 1024.

(** [float(n)]: the binary64 nearest to the integer (ties to even).
    [None] is [OverflowError], raised when no finite float is near. *)
Definition float_of_int (n : Z) : option float :=
  match binary_normalize prec emax n 0 false with
  | S754_infinity _ => None
  | f => Some f
  end.

(** The float a decimal literal [n / 10^k] denotes: both [n] and the
    power of ten are exact here, and the division rounds once. *)
Definition float_lit (n : Z) (pow10 : Z) : float :=
  SFdiv prec emax (binary_normalize prec emax n 0 false)
                  (binary_normalize prec emax pow10 0 false).

(** [p / q] rounded to the nearest integer, ties to the even one
    ([q > 0], [p >= 0]). *)
Definition round_half_even (p q : Z) : Z :=
  let d := p / q in
  let r := p mod q in
  match 2 * r ?= q with
  | Lt => d
  | Gt => d + 1
  | Eq => if Z.even d then d else d + 1
  end.

(** The number of tenths nearest to [m * 2^e]. *)
Definition tenths (m e : Z) : Z :=
  if 0 <=? e then 10 * m * 2 ^ e
  else round_half_even (10 * m) (2 ^ (- e)).

(** ["%.1f" % f]: the exact binary value rounded to one decimal, ties
    to even, with the sign of the float kept. *)
Definition format_1f (f : float) : string :=
  match f with
  | S754_nan => "nan"
  | S754_infinity s => if s then "-inf" else "inf"
  | S754_zero s => if s then "-0.0" else "0.0"
  | S754_finite s m e =>
      let t := tenths (Z.pos m) e in
      (if s then "-" else "")
        ++ str_of_N (t / 10) ++ "." ++ str_of_N (t mod 10)
  end.

End Py.


(* ================================================================== *)
(** ** Decoded JSON, as [json.loads] hands it to the read loop *)
(* ================================================================== *)

Module Json.

(** A decoded frame: [None], [bool], [int], [float], [str], [list] or
    [dict].  A [dict] is its list of items; a key is looked up from the
    front. *)
#[warnings="-register-all"]
Inductive value : Type :=
| Null
| Bool (b : bool)
| Int (n : Z)
| Float (f : Py.float)
| Str (s : string)
| Arr (items : list value)
| Obj (members : list (string * value)).

(** [v == s] for a string [s]: only a [str] of the same text is equal. *)
Definition eq_str (v : value) (s : string) : bool :=
  match v with
  | Str t => String.eqb t s
  | _ => false
  end.

Fixpoint lookup (k : string) (members : list (string * value))
  : option value :=
  match members with
  | [] => None
  | (k', v) :: rest => if String.eqb k' k then Some v else lookup k rest
  end.

(** [bool(v)] *)
Definition truthy (v : value) : bool :=
  match v with
  | Null => false
  | Bool b => b
  | Int n => negb (n =? 0)
  | Float (S754_zero _) => false
  | Float _ => true
  | Str s => Py.nonempty s
  | Arr [] => false
  | Arr _ => true
  | Obj [] => false
  | Obj _ => true
  end.

End Json.

(* ================================================================== *)
(** ** Exceptions, traces and the computation monad *)
(* ================================================================== *)

Inductive Exn : Type :=
| ValueError
| KeyError (key : string)
| TypeError
| AttributeError
| OverflowError
| TimeoutError                 (* tornado.gen.TimeoutError *)
| DBusException
| PulseError
| OtherError (name : string).  (* raised inside a library call *)

Inductive Result (A : Type) : Type :=
| Ok (a : A)
| Raise (e : Exn).
Arguments Ok {A} a.
Arguments Raise {A} e.

Inductive Level := Info | Warning | Error.

(** What a logging call is given: a text, an object (logged through its
    [str]), or a text followed by the [str] of an object. *)
Inductive LogMsg : Type :=
| Text (s : string)
| Object (v : Json.value)
| TextObject (s : string) (v : Json.value).

Inductive Bus := SystemBus | SessionBus.

(** The methods of [WSClient] handed to the event loop to run later. *)
Inductive Callback : Type :=
| cmd_poweroff
| cmd_sleep
| cmd_reboot
| cmd_image (filename : string)
| cmd_screenshot (filename : string).

Definition Socket := nat.

(** What the client does to the outside, in the order it does it.
    Delays are in milliseconds. *)
Inductive Event : Type :=
| Log (lvl : Level) (msg : LogMsg)
| WebsocketConnect (url : string) (ping_interval ping_timeout : Z)
| WriteMessage (sock : Socket) (payload : Json.value)
| AddTimeout (delay_ms : Z) (cb : Callback)
| AddCallback (cb : Callback)
| DBusCall (bus : Bus) (iface method : string) (args : list bool)
| PulseConnect (client_name : string)
| PulseVolumeSetAllChans (sink : string) (volume : Py.float)
| PulseClose
| LocateSubmit (pattern : Json.value)
| OsSystem (command_line : string)
| ImWrite (filename : string).

(** A computation: its trace and how it ended. *)
Definition M (A : Type) : Type := list Event * Result A.

Definition ret {A} (a : A) : M A := ([], Ok a).
Definition raise {A} (e : Exn) : M A := ([], Raise e).
Definition emit (ev : Event) : M unit := ([ev], Ok tt).

Definition bind {A B} (m : M A) (k : A -> M B) : M B :=
  match m with
  | (t, Ok a) => let '(t', r) := k a in ((t ++ t')%list, r)
  | (t, Raise e) => (t, Raise e)
  end.

(** [try: m  except E: handler], for the exceptions [catches] selects. *)
Definition try_except {A} (m : M A) (catches : Exn -> bool) (handler : M A)
  : M A :=
  match m with
  | (t, Raise e) =>
      if catches e then let '(t', r) := handler in ((t ++ t')%list, r)
      else (t, Raise e)
  | done => done
  end.

(** [try: m  finally: cleanup], the shape of a [with] block. *)
Definition try_finally {A} (m : M A) (cleanup : list Event) : M A :=
  let '(t, r) := m in ((t ++ cleanup)%list, r).

Definition trace {A} (m : M A) : list Event := fst m.
Definition result {A} (m : M A) : Result A := snd m.

Declare Scope py_scope.
Delimit Scope py_scope with py.
Notation "x <- m ;; k" := (bind m (fun x => k))
  (at level 61, m at next level, right associativity) : py_scope.
Notation "m ;; k" := (bind m (fun _ => k))
  (at level 61, right associativity) : py_scope.
Open Scope py_scope.

(* ================================================================== *)
(** ** The machine the agent runs on *)
(* ================================================================== *)

(** What a search of the locate database comes to: the paths it yields
    and the time it takes, an exception, or no answer at all. *)
Inductive Search : Type :=
| Found (elapsed_ms : Z) (paths : list string)
| Failed (elapsed_ms : Z) (e : Exn)
| Hung.

Record DateTime : Type := {
  year : Z; month : Z; day : Z; hour : Z; minute : Z; second : Z
}.

(** The answers of the libraries the handlers call.  [None] stands for
    the missing value or the exception noted at each field. *)
Record Host : Type := {
  virtual_memory_percent : Py.float;     (* psutil.virtual_memory().percent *)
  disk_partitions : list string;         (* mountpoints of disk_partitions() *)
  disk_usage_percent : string -> Py.float;
  sensors_battery : option Py.float;     (* None: there is no battery *)
  cpu_percent : Py.float;                (* psutil.cpu_percent(interval=0.5) *)
  process_names : list (option string);  (* info["name"]; None: not readable *)
  dbus_reply : Bus -> string -> string -> option string;
                                         (* None: DBusException *)
  plocate : Json.value -> Search;
  pulse_sinks : option (list string);    (* None: PulseError on connecting *)
  environ_HOME : option string;          (* None: HOME is not set *)
  now : DateTime;
  camera_frame : bool                    (* cap.read() gave a frame *)
}.

(** A future of the event loop, seen from the coroutine waiting on it. *)
Inductive Future (A : Type) : Type :=
| Done (elapsed_ms : Z) (a : A)
| Broke (elapsed_ms : Z) (e : Exn)
| Never.
Arguments Done {A} elapsed_ms a.
Arguments Broke {A} elapsed_ms e.
Arguments Never {A}.

(* ================================================================== *)
(** ** Operators on decoded values *)
(* ================================================================== *)

(** [k in v]: a key of a dict, a substring of a str, an element of a list;
    anything else is not iterable. *)
Definition py_in (k : string) (v : Json.value) : M bool :=
  match v with
  | Json.Obj members =>
      ret (match Json.lookup k members with Some _ => true | None => false end)
  | Json.Str s => ret (Py.contains k s)
  | Json.Arr items => ret (existsb (fun e => Json.eq_str e k) items)
  | _ => raise TypeError
  end.

(** [v[k]] for a string [k]. *)
Definition getitem (v : Json.value) (k : string) : M Json.value :=
  match v with
  | Json.Obj members =>
      match Json.lookup k members with
      | Some x => ret x
      | None => raise (KeyError k)
      end
  | _ => raise TypeError
  end.

(** The receiver of a [str] method: only a [str] has [strip] and
    [replace]. *)
Definition as_str (v : Json.value) : M string :=
  match v with
  | Json.Str s => ret s
  | _ => raise AttributeError
  end.

(** [os.path.join(path, b)] for a [b] that does not start with a slash. *)
Fixpoint endswith (c : ascii) (s : string) : bool :=
  match s with
  | EmptyString => false
  | String a EmptyString => Ascii.eqb a c
  | String _ s' => endswith c s'
  end.

Definition path_join (path b : string) : string :=
  match path with
  | EmptyString => b
  | _ => if endswith "/" path then path ++ b else path ++ "/" ++ b
  end.

(** [strftime(prefix-%Y-%m-%d-%Hh-%Mm-%Ss.png)] *)
Definition stamp (prefix : string) (t : DateTime) : string :=
  prefix ++ Py.str_of_N (year t) ++ "-" ++ Py.pad2 (month t) ++ "-"
    ++ Py.pad2 (day t) ++ "-" ++ Py.pad2 (hour t) ++ "h-"
    ++ Py.pad2 (minute t) ++ "m-" ++ Py.pad2 (second t) ++ "s.png".

(** [tornado.gen.with_timeout(timedelta(milliseconds=budget_ms), fut)]:
    the future's outcome when it is there within the budget,
    [TimeoutError] otherwise; a late outcome is dropped. *)
Definition with_timeout {A} (budget_ms : Z) (fut : Future A) : M A :=
  match fut with
  | Done ms a => if ms <=? budget_ms then ret a else raise TimeoutError
  | Broke ms e => if ms <=? budget_ms then raise e else raise TimeoutError
  | Never => raise TimeoutError
  end.

Definition is_TimeoutError (e : Exn) : bool :=
  match e with TimeoutError => true | _ => false end.


(* ================================================================== *)
(** ** class WSClient *)
(* ================================================================== *)

Module WSClient.

(** The fields of the object that the methods read and write. *)
Record t : Type := {
  url : string;
  ping_interval : Z;
  ping_timeout : Z;
  ws : option Socket
}.

Definition set_ws (c : t) (w : option Socket) : t :=
  {| url := url c; ping_interval := ping_interval c;
     ping_timeout := ping_timeout c; ws := w |}.

Definition login1 : string := "org.freedesktop.login1.Manager".
Definition screensaver : string := "org.gnome.ScreenSaver".

(** One D-Bus method call: the call is recorded, the reply comes from the
    host. *)
Definition dbus_call (h : Host) (bus : Bus) (iface method : string)
  (args : list bool) : M string :=
  emit (DBusCall bus iface method args) ;;
  match dbus_reply h bus iface method with
  | Some reply => ret reply
  | None => raise DBusException
  end.

Definition can_poweroff (h : Host) : M bool :=
  r <- dbus_call h SystemBus login1 "CanPowerOff" [] ;;
  ret (String.eqb r "yes").

Definition can_sleep (h : Host) : M bool :=
  r <- dbus_call h SystemBus login1 "CanSuspend" [] ;;
  ret (String.eqb r "yes").

Definition can_reboot (h : Host) : M bool :=
  r <- dbus_call h SystemBus login1 "CanReboot" [] ;;
  ret (String.eqb r "yes").

Definition do_poweroff (h : Host) : M unit :=
  dbus_call h SystemBus login1 "PowerOff" [true] ;; ret tt.

Definition do_sleep (h : Host) : M unit :=
  dbus_call h SystemBus login1 "Suspend" [true] ;; ret tt.

Definition do_reboot (h : Host) : M unit :=
  dbus_call h SystemBus login1 "Reboot" [true] ;; ret tt.

Definition cmd_lock (h : Host) : M unit :=
  dbus_call h SessionBus screensaver "SetActive" [true] ;; ret tt.

Definition cmd_unlock (h : Host) : M unit :=
  dbus_call h SessionBus screensaver "SetActive" [false] ;; ret tt.

Definition do_screenshot (filename : string) : M unit :=
  emit (OsSystem ("gnome-screenshot -f '" ++ filename ++ "'")).

Definition do_image (h : Host) (filename : string) : M unit :=
  if camera_frame h then emit (ImWrite filename) else ret tt.

(** What the event loop runs when a scheduled method comes due. *)
Definition fire (h : Host) (cb : Callback) : M unit :=
  match cb with
  | cmd_poweroff => do_poweroff h
  | cmd_sleep => do_sleep h
  | cmd_reboot => do_reboot h
  | cmd_image filename => do_image h filename
  | cmd_screenshot filename => do_screenshot filename
  end.

(** [locate]: the paths the database yields, each followed by a blank. *)
Definition locate (h : Host) (pattern : Json.value) : Future string :=
  match plocate h pattern with
  | Found ms paths =>
      Done ms (fold_left (fun results p => results ++ p ++ " ") paths "")
  | Failed ms e => Broke ms e
  | Hung => Never
  end.

(** The loop over [psutil.process_iter]: it stops at the first name that
    contains [search]. *)
Fixpoint find_process (search : string) (procs : list (option string))
  : M bool :=
  match procs with
  | [] => ret false
  | None :: _ => raise AttributeError
  | Some name :: rest =>
      if Py.contains search (Py.lower name) then ret true
      else find_process search rest
  end.

Definition processQuery (h : Host) (value x : Json.value) : M string :=
  if Json.eq_str value "memory" then
    ret ("Memory usage is " ++ Py.format_1f (virtual_memory_percent h) ++ "%")
  else if Json.eq_str value "disk" then
    ret (fold_left
           (fun msg p =>
              msg ++ p ++ " " ++ Py.format_1f (disk_usage_percent h p) ++ "% ")
           (disk_partitions h) "Disk usage is ")
  else if Json.eq_str value "battery" then
    match sensors_battery h with
    | Some percent => ret ("Battery is " ++ Py.format_1f percent ++ "%")
    | None => raise AttributeError
    end
  else if Json.eq_str value "processor" then
    ret ("CPU usage is " ++ Py.format_1f (cpu_percent h) ++ "%")
  else if Json.eq_str value "open" then
    s <- as_str x ;;
    let search := Py.lower (Py.strip s) in
    found <- find_process search (process_names h) ;;
    if found then ret ("Yes, " ++ search ++ " is running")
    else ret ("No, " ++ search ++ " is not running")
  else ret "Unknown query".

Definition hundred : Py.float := binary_normalize Py.prec Py.emax 100 0 false.

(** [volume/100.0] *)
Definition volume_fraction (volume : Z) : M Py.float :=
  match Py.float_of_int volume with
  | Some f => ret (SFdiv Py.prec Py.emax f hundred)
  | None => raise OverflowError
  end.

(** The loop over [pulse.sink_list()]. *)
Fixpoint set_sinks (volume : Z) (sinks : list string) : M unit :=
  match sinks with
  | [] => ret tt
  | sink :: rest =>
      v <- volume_fraction volume ;;
      emit (PulseVolumeSetAllChans sink v) ;;
      set_sinks volume rest
  end.

(** The [with pulsectl.Pulse('setting-volume')] block. *)
Definition set_volume (h : Host) (volume : Z) : M unit :=
  emit (PulseConnect "setting-volume") ;;
  match pulse_sinks h with
  | Some sinks => try_finally (set_sinks volume sinks) [PulseClose]
  | None => raise PulseError
  end.

Definition dropbox_file (h : Host) (prefix : string) : M string :=
  match environ_HOME h with
  | Some home =>
      ret (path_join (path_join home "Dropbox") (stamp prefix (now h)))
  | None => raise (KeyError "HOME")
  end.

Definition slow_budget_ms : Z := 3500.
Definition deferral_ms : Z := 2000.

Definition processCommand (h : Host) (command x url : Json.value)
  : M string :=
  if Json.eq_str command "power off" then
    ok <- can_poweroff h ;;
    if ok then emit (AddTimeout deferral_ms cmd_poweroff) ;; ret "Powering off"
    else ret "Cannot power off"
  else if Json.eq_str command "sleep" then
    ok <- can_sleep h ;;
    if ok then emit (AddTimeout deferral_ms cmd_sleep) ;; ret "Sleeping"
    else ret "Cannot sleep"
  else if Json.eq_str command "reboot" then
    ok <- can_reboot h ;;
    if ok then emit (AddTimeout deferral_ms cmd_reboot) ;; ret "Rebooting"
    else ret "Cannot reboot"
  else if Json.eq_str command "lock" then
    cmd_lock h ;; ret "Locking"
  else if Json.eq_str command "unlock" then
    cmd_unlock h ;; ret "Unlocking"
  else if Json.eq_str command "open" then ret "Not implemented yet"
  else if Json.eq_str command "close" then ret "Not implemented yet"
  else if Json.eq_str command "kill" then ret "Not implemented yet"
  else if Json.eq_str command "locate" then
    if Json.truthy x then
      try_except
        (emit (LocateSubmit x) ;;
         found <- with_timeout slow_budget_ms (locate h x) ;;
         ret ("Results: " ++ found))
        is_TimeoutError
        (ret "Timed out")
    else ret "Nothing to search for"
  else if Json.eq_str command "fetch" then ret "Not implemented yet"
  else if Json.eq_str command "set volume" then
    s <- as_str x ;;
    let x' := Py.remove_char "%" s in
    match Py.int x' with
    | None => ret "Invalid percentage"
    | Some volume => set_volume h volume ;; ret "Volume set"
    end
  else if Json.eq_str command "stop" then ret "Not implemented yet"
  else if Json.eq_str command "take a picture" then
    filename <- dropbox_file h "LinuxControl-Picture-" ;;
    emit (AddCallback (cmd_image filename)) ;;
    ret ("Taking picture " ++ filename)
  else if Json.eq_str command "screenshot" then
    filename <- dropbox_file h "LinuxControl-Screenshot-" ;;
    emit (AddCallback (cmd_screenshot filename)) ;;
    ret ("Taking screenshot " ++ filename)
  else if Json.eq_str command "download" then ret "Not implemented yet"
  else if Json.eq_str command "start recording" then ret "Not implemented yet"
  else if Json.eq_str command "stop recording" then ret "Not implemented yet"
  else ret "Unknown command".

(** *** The connection *)

(** How [websocket_connect] ends: with a connection, with
    [tornado.httpclient.HTTPError], or with another exception. *)
Inductive Handshake : Type :=
| Opened (sock : Socket)
| HTTPError
| Refused (e : Exn).

(** What [read_message] returns: [None] when the connection is closed,
    else a frame, given here by what [json.loads] makes of it ([None]:
    it raises [ValueError]). *)
Inductive Read : Type :=
| EndOfStream
| Message (decoded : option Json.value).

(** How one turn of [while True] ends. *)
Inductive Ctl := Continue | Break.

(** Where a read loop stands: suspended in [read_message], left through
    [break], or ended by an exception. *)
Inductive Loop : Type :=
| Reading
| Finished
| Died (e : Exn).

(** [self.ws.write_message(json.dumps(payload))] *)
Definition write_message (c : t) (payload : Json.value) : M unit :=
  match ws c with
  | Some sock => emit (WriteMessage sock payload)
  | None => raise AttributeError
  end.

Definition response (text : string) : Json.value :=
  Json.Obj [("response", Json.Str text)].

(** The [if]/[elif] chain of [run] on a decoded frame. *)
Definition dispatch (h : Host) (c : t) (msg : Json.value) : M Ctl :=
  is_error <- py_in "error" msg ;;
  if is_error then
    text <- getitem msg "error" ;;
    emit (Log Error (Object text)) ;;
    ret Break
  else
    is_query <- py_in "query" msg ;;
    if is_query then
      q <- getitem msg "query" ;;
      value <- getitem q "value" ;;
      x <- getitem q "x" ;;
      answer <- processQuery h value x ;;
      write_message c (response answer) ;;
      ret Continue
    else
      is_command <- py_in "command" msg ;;
      if is_command then
        k <- getitem msg "command" ;;
        command <- getitem k "command" ;;
        x <- getitem k "x" ;;
        u <- getitem k "url" ;;
        answer <- processCommand h command x u ;;
        write_message c (response answer) ;;
        ret Continue
      else
        emit (Log Warning (TextObject "Unknown message: " msg)) ;;
        ret Continue.

(** One turn of the loop of [run], on what [read_message] returned. *)
Definition turn (h : Host) (c : t) (r : Read) : t * M Ctl :=
  match r with
  | EndOfStream =>
      (set_ws c None, emit (Log Info (Text "Connection closed")) ;; ret Break)
  | Message None => (c, raise ValueError)
  | Message (Some msg) => (c, dispatch h c msg)
  end.

(** [run] on the reads the socket delivers.  The only handler of the
    method is for [KeyboardInterrupt], which no call of the model raises:
    any exception ends the loop. *)
Fixpoint run (h : Host) (c : t) (reads : list Read)
  : t * list Event * Loop :=
  match reads with
  | [] => (c, [], Reading)
  | r :: rest =>
      match turn h c r with
      | (c', (tr, Ok Continue)) =>
          let '(c'', tr', st) := run h c' rest in (c'', (tr ++ tr')%list, st)
      | (c', (tr, Ok Break)) => (c', tr, Finished)
      | (c', (tr, Raise e)) => (c', tr, Died e)
      end
  end.

(** [connect]: it always starts a handshake.  The value says whether
    [run] was started. *)
Definition connect (hs : Handshake) (c : t) : t * M bool :=
  let attempt :=
    WebsocketConnect (url c) (ping_interval c) (ping_timeout c) in
  match hs with
  | Opened sock =>
      (set_ws c (Some sock),
       emit attempt ;; emit (Log Info (Text "Connection opened")) ;; ret true)
  | HTTPError =>
      (c,
       emit attempt ;;
       emit (Log Error (Text "HTTP error - could not connect to websocket")) ;;
       ret false)
  | Refused e => (c, emit attempt ;; raise e)
  end.

(** [keep_alive], the periodic callback; [hs] is how the handshake ends
    if one is started. *)
Definition keep_alive (hs : Handshake) (c : t) : t * M bool :=
  match ws c with
  | None =>
      let '(c', m) := connect hs c in
      (c', emit (Log Info (Text "Reconnecting")) ;; m)
  | Some _ => (c, ret false)
  end.

(** The number of handshakes a trace starts. *)
Fixpoint connects (tr : list Event) : nat :=
  match tr with
  | [] => 0%nat
  | WebsocketConnect _ _ _ :: rest => S (connects rest)
  | _ :: rest => connects rest
  end.

End WSClient.

(* ================================================================== *)
(** ** The running process *)
(* ================================================================== *)

Module Agent.

Import WSClient.

(** The process between two events of the loop: the client object,
    whether a read loop is suspended in [read_message], the sockets that
    were opened and have not reached their end of stream, and what the
    process has done so far.  A handshake is one step: it is over well
    before the next tick of the one-minute timer. *)
Record t : Type := {
  client : WSClient.t;
  reading : bool;
  live : list Socket;
  history : list Event
}.

Inductive Input : Type :=
| Tick (hs : Handshake)    (* the periodic callback fires *)
| Recv (r : Read).         (* read_message returns *)

(** The process after a call of [connect] or [keep_alive]. *)
Definition connected (a : t) (out : WSClient.t * M bool) : t :=
  let '(c', (tr, res)) := out in
  match res, ws c' with
  | Ok true, Some sock =>
      {| client := c'; reading := true; live := sock :: live a;
         history := history a ++ tr |}
  | _, _ =>
      {| client := c'; reading := reading a; live := live a;
         history := history a ++ tr |}
  end.

(** [WSClient(url)]: the constructor connects once. *)
Definition start (hs : Handshake) (u : string) : t :=
  let c := {| url := u; ping_interval := 60; ping_timeout := 60 * 3;
              ws := None |} in
  connected {| client := c; reading := false; live := []; history := [] |}
            (connect hs c).

Definition drop (sock : option Socket) (l : list Socket) : list Socket :=
  match sock with
  | Some s => filter (fun s' => negb (Nat.eqb s' s)) l
  | None => l
  end.

(** One event of the loop.  What arrives while no read loop is suspended
    stays unread. *)
Definition step (h : Host) (a : t) (i : Input) : t :=
  match i with
  | Tick hs => connected a (keep_alive hs (client a))
  | Recv r =>
      if reading a then
        let '(c', (tr, res)) := turn h (client a) r in
        {| client := c';
           reading := match res with Ok Continue => true | _ => false end;
           live := match r with
                   | EndOfStream => drop (ws (client a)) (live a)
                   | _ => live a
                   end;
           history := history a ++ tr |}
      else a
  end.

Definition steps (h : Host) (a : t) (inputs : list Input) : t :=
  fold_left (step h) inputs a.

(** The sockets the process holds are exactly the one in [self.ws], and
    a read loop is suspended only on a socket that is held. *)
Definition consistent (a : t) : Prop :=
  match ws (client a) with
  | Some sock => live a = [sock]
  | None => live a = [] /\ reading a = false
  end.

End Agent.

(* ================================================================== *)
(** ** A machine to run the model on *)
(* ================================================================== *)

Module Example.

Import WSClient.

(** A laptop at 87.35 % of battery, with two audio sinks, three
    processes, and a locate database that answers in one second for
    ["hosts"] and never for anything else. *)
Definition laptop : Host := {|
  virtual_memory_percent := Py.float_lit 415 10;
  disk_partitions := ["/"; "/home"];
  disk_usage_percent := fun _ => Py.float_lit 25 100;
  sensors_battery := Some (Py.float_lit 8735 100);
  cpu_percent := Py.float_lit 5 100;
  process_names := [Some "systemd"; Some "Firefox"; Some "bash"];
  dbus_reply := fun _ _ method =>
    if String.eqb method "CanPowerOff" then Some "yes"
    else if String.eqb method "CanSuspend" then Some "challenge"
    else if String.eqb method "CanReboot" then Some "yes"
    else Some "";
  plocate := fun pattern =>
    if Json.eq_str pattern "hosts" then Found 1000 ["/etc/hosts"] else Hung;
  pulse_sinks := Some ["speakers"; "hdmi"];
  environ_HOME := Some "/home/user";
  now := {| year := 2017; month := 3; day := 9;
            hour := 14; minute := 5; second := 0 |};
  camera_frame := true
|}.

Definition online : WSClient.t := {|
  url := "wss://wopto.net:42770/linux-control/con?id=me&token=secret";
  ping_interval := 60;
  ping_timeout := 180;
  ws := Some 1%nat
|}.

Definition error_frame : Read :=
  Message (Some (Json.Obj [("error", Json.Str "bad token")])).

Definition query_frame (value x : string) : Read :=
  Message (Some (Json.Obj
    [("query", Json.Obj [("value", Json.Str value); ("x", Json.Str x)])])).

Definition command_frame (command x : string) : Read :=
  Message (Some (Json.Obj
    [("command", Json.Obj [("command", Json.Str command);
                           ("x", Json.Str x); ("url", Json.Str "")])])).

End Example.

Import WSClient.

(** The names the two dispatchers know (lines 95-109 and 129-203). *)
Definition recognized_queries : list string :=
  ["memory"; "disk"; "battery"; "processor"; "open"].

Definition recognized_commands : list string :=
  ["power off"; "sleep"; "reboot"; "lock"; "unlock"; "open"; "close";
   "kill"; "locate"; "fetch"; "set volume"; "stop"; "take a picture";
   "screenshot"; "download"; "start recording"; "stop recording"].

(** The commands behind a capability check (lines 129-146): the name,
    the check, the D-Bus method the check calls, the method that is
    scheduled, the D-Bus method that one calls, and the confirmation. *)
Definition gated_commands
  : list (string * (Host -> M bool) * string * Callback * string * string) :=
  [ ("power off", can_poweroff, "CanPowerOff",
     cmd_poweroff, "PowerOff", "Powering off");
    ("sleep", can_sleep, "CanSuspend", cmd_sleep, "Suspend", "Sleeping");
    ("reboot", can_reboot, "CanReboot", cmd_reboot, "Reboot", "Rebooting") ].

(** The methods of a trace that the event loop has run [elapsed_ms]
    after the trace was produced. *)
Fixpoint due (elapsed_ms : Z) (tr : list Event) : list Callback :=
  match tr with
  | [] => []
  | AddTimeout delay cb :: rest =>
      if delay <=? elapsed_ms then cb :: due elapsed_ms rest
      else due elapsed_ms rest
  | AddCallback cb :: rest => cb :: due elapsed_ms rest
  | _ :: rest => due elapsed_ms rest
  end.


(** The commands that are names only so far (lines 153-158, 171-172,
    185-186 and 199-204). *)
Definition placeholder_commands : list string :=
  ["open"; "close"; "kill"; "fetch"; "stop"; "download";
   "start recording"; "stop recording"].

(** The events that go over the network: a handshake, a frame written. *)
Definition network (ev : Event) : bool :=
  match ev with
  | WebsocketConnect _ _ _ | WriteMessage _ _ => true
  | _ => false
  end.

(** A trace that stays off the network. *)
Definition offline (tr : list Event) : bool :=
  forallb (fun ev => negb (network ev)) tr.

(** The frames a trace writes, with the socket each one is written to. *)
Fixpoint written (tr : list Event) : list (Socket * Json.value) :=
  match tr with
  | [] => []
  | WriteMessage sock payload :: rest => (sock, payload) :: written rest
  | _ :: rest => written rest
  end.

(** The texts of a list put end to end. *)
Fixpoint flatten (l : list string) : string :=
  match l with
  | [] => ""
  | s :: rest => s ++ flatten rest
  end.

(** The first of [keys] that a dict lacks. *)
Fixpoint first_missing (keys : list string)
  (members : list (string * Json.value)) : option string :=
  match keys with
  | [] => None
  | k :: rest =>
      match Json.lookup k members with
      | Some _ => first_missing rest members
      | None => Some k
      end
  end.

(** The same machine with another table of processes. *)
Definition with_processes (h : Host) (procs : list (option string)) : Host :=
  {| virtual_memory_percent := virtual_memory_percent h;
     disk_partitions := disk_partitions h;
     disk_usage_percent := disk_usage_percent h;
     sensors_battery := sensors_battery h;
     cpu_percent := cpu_percent h;
     process_names := procs;
     dbus_reply := dbus_reply h;
     plocate := plocate h;
     pulse_sinks := pulse_sinks h;
     environ_HOME := environ_HOME h;
     now := now h;
     camera_frame := camera_frame h |}.

(** The same machine with another audio server. *)
Definition with_pulse (h : Host) (sinks : option (list string)) : Host :=
  {| virtual_memory_percent := virtual_memory_percent h;
     disk_partitions := disk_partitions h;
     disk_usage_percent := disk_usage_percent h;
     sensors_battery := sensors_battery h;
     cpu_percent := cpu_percent h;
     process_names := process_names h;
     dbus_reply := dbus_reply h;
     plocate := plocate h;
     pulse_sinks := sinks;
     environ_HOME := environ_HOME h;
     now := now h;
     camera_frame := camera_frame h |}.

(** A number of 310 digits, too large for a float. *)
Definition huge_number : string :=
  "1000000000000000000000000000000000000000000000000000000000000000000000000000000000000000000000000000000000000000000000000000000000000000000000000000000000000000000000000000000000000000000000000000000000000000000000000000000000000000000000000000000000000000000000000000000000000000000000000000000000000000000000".

(** The same machine with another battery, or none. *)
Definition with_battery (h : Host) (battery : option Py.float) : Host :=
  {| virtual_memory_percent := virtual_memory_percent h;
     disk_partitions := disk_partitions h;
     disk_usage_percent := disk_usage_percent h;
     sensors_battery := battery;
     cpu_percent := cpu_percent h;
     process_names := process_names h;
     dbus_reply := dbus_reply h;
     plocate := plocate h;
     pulse_sinks := pulse_sinks h;
     environ_HOME := environ_HOME h;
     now := now h;
     camera_frame := camera_frame h |}.

(** A handshake that gives no connection. *)
Definition failing (hs : Handshake) : bool :=
  match hs with
  | Opened _ => false
  | HTTPError | Refused _ => true
  end.

(** The frame of a command, as the server sends it. *)
Definition command_message (name : string) (x u : Json.value) : Read :=
  Message (Some (Json.Obj
    [("command", Json.Obj [("command", Json.Str name); ("x", x);
                           ("url", u)])])).

(** A decoded frame that is a string or a list and has one of the three
    keys of the protocol in it: as a substring, or as an element. *)
Definition mentions_key (msg : Json.value) : bool :=
  match msg with
  | Json.Str s =>
      Py.contains "error" s || Py.contains "query" s
      || Py.contains "command" s
  | Json.Arr items =>
      existsb (fun e => Json.eq_str e "error") items
      || existsb (fun e => Json.eq_str e "query") items
      || existsb (fun e => Json.eq_str e "command") items
  | _ => false
  end.

(* ================================================================== *)
(** ** Properties *)
(* ================================================================== *)

(** *** Sanity checks of the primitives against CPython *)

Example int_plain : Py.int "55" = Some 55.
Proof. reflexivity. Qed.

Example int_signed_spaced : Py.int " -5_5 " = Some (-55).
Proof. reflexivity. Qed.

Example int_letters : Py.int "abc" = None.
Proof. reflexivity. Qed.

Example int_bad_underscores :
  Py.int "5__5" = None /\ Py.int "_55" = None /\ Py.int "55_" = None.
Proof. repeat split. Qed.

Example int_empty : Py.int "" = None /\ Py.int "+" = None.
Proof. split; reflexivity. Qed.

Example format_ties :
  Py.format_1f (Py.float_lit 25 100) = "0.2"
  /\ Py.format_1f (Py.float_lit 5 100) = "0.1"
  /\ Py.format_1f (Py.float_lit 9995 100) = "100.0".
Proof. repeat split; vm_compute; reflexivity. Qed.

Example strip_both_ends : Py.strip "  a b  " = "a b".
Proof. reflexivity. Qed.

Example run_battery_frame :
  run Example.laptop Example.online [Example.query_frame "battery" ""]
  = (Example.online,
     [WriteMessage 1%nat (response "Battery is 87.3%")], Reading).
Proof. vm_compute. reflexivity. Qed.

(** *** Strings *)


Lemma eq_str_Str (s name : string) :
  Json.eq_str (Json.Str s) name = String.eqb s name.
Proof. reflexivity. Qed.

(** *** The monad *)

Lemma bind_ret_l {A B} (a : A) (k : A -> M B) : bind (ret a) k = k a.
Proof. unfold bind, ret. destruct (k a). reflexivity. Qed.

Lemma bind_emit {B} (ev : Event) (k : unit -> M B) :
  bind (emit ev) k = (ev :: trace (k tt), result (k tt)).
Proof. unfold bind, emit. destruct (k tt). reflexivity. Qed.

Create Rewrite HintDb monad.
#[local] Hint Rewrite @bind_ret_l @bind_emit : monad.

(** *** Names the dispatchers do not know *)

(** Decide one comparison of the chain: equal names contradict [H]. *)
Ltac skip_name H :=
  match goal with
  | |- context [String.eqb ?a ?b] =>
      destruct (String.eqb_spec a b) as [-> | _];
      [ exfalso; apply H; repeat first [ left; reflexivity | right ] | ]
  end.

(** C9. A command name outside the recognized set is answered
    "Unknown command", a query name outside the recognized set
    "Unknown query"; neither touches the machine. *)
Theorem unknown_names (h : Host) (name : string) (x u : Json.value) :
  (~ In name recognized_commands ->
   processCommand h (Json.Str name) x u = ([], Ok "Unknown command"))
  /\ (~ In name recognized_queries ->
      processQuery h (Json.Str name) x = ([], Ok "Unknown query")).
Proof.
  split; intros H.
  - unfold processCommand. rewrite !eq_str_Str.
    repeat skip_name H. reflexivity.
  - unfold processQuery. rewrite !eq_str_Str.
    repeat skip_name H. reflexivity.
Qed.

Lemma unknown_names_witness :
  processCommand Example.laptop (Json.Str "dance") (Json.Str "") (Json.Str "")
    = ([], Ok "Unknown command")
  /\ processQuery Example.laptop (Json.Str "weather") (Json.Str "")
     = ([], Ok "Unknown query").
Proof.
  split.
  - apply (proj1 (unknown_names Example.laptop "dance" _ _)).
    simpl. intuition discriminate.
  - apply (proj2 (unknown_names Example.laptop "weather" _ (Json.Str ""))).
    simpl. intuition discriminate.
Defined.

(** *** The "open" query *)




(** *** Rendering a percentage *)

Lemma round_half_even_nearest (p q : Z) :
  0 < q -> 2 * Z.abs (p - q * Py.round_half_even p q) <= q.
Proof.
  intros Hq. unfold Py.round_half_even.
  pose proof (Z.div_mod p q ltac:(lia)) as Hdm.
  pose proof (Z.mod_pos_bound p q Hq) as Hr.
  destruct (Z.compare_spec (2 * (p mod q)) q) as [He | Hl | Hg].
  - destruct (Z.even (p / q)); lia.
  - lia.
  - lia.
Qed.

(** The tenths printed are the nearest to the exact binary value. *)
Lemma tenths_nearest (m e : Z) :
  e < 0 ->
  2 * Z.abs (10 * m - Py.tenths m e * 2 ^ (- e)) <= 2 ^ (- e).
Proof.
  intros He. unfold Py.tenths.
  destruct (Z.leb_spec 0 e) as [Hle | _]; [lia |].
  assert (Hq : 0 < 2 ^ (- e)) by (apply Z.pow_pos_nonneg; lia).
  rewrite (Z.mul_comm _ (2 ^ (- e))).
  apply round_half_even_nearest. exact Hq.
Qed.

(** C5. With the battery at 87.35 percent the "battery" query answers
    "Battery is 87.3%".  The reading is a binary64 just below 87.35, and
    873 is the number of tenths nearest to it: one decimal place, rounded
    to nearest. *)
Theorem battery_one_decimal (h : Host) (x : Json.value) :
  sensors_battery h = Some (Py.float_lit 8735 100) ->
  processQuery h (Json.Str "battery") x = ([], Ok "Battery is 87.3%")
  /\ exists m e,
       Py.float_lit 8735 100 = S754_finite false m e
       /\ e < 0
       /\ Py.tenths (Z.pos m) e = 873
       /\ 2 * Z.abs (10 * Z.pos m - 873 * 2 ^ (- e)) <= 2 ^ (- e).
Proof.
  intros Hb. split.
  - unfold processQuery. simpl Json.eq_str. cbv iota.
    rewrite Hb. vm_compute. reflexivity.
  - exists 6146709803918950%positive, (-46).
    assert (Ht : Py.tenths 6146709803918950 (-46) = 873)
      by (vm_compute; reflexivity).
    split; [vm_compute; reflexivity |].
    split; [lia |].
    split; [exact Ht |].
    rewrite <- Ht. apply tenths_nearest. lia.
Qed.

Lemma battery_one_decimal_witness :
  processQuery Example.laptop (Json.Str "battery") (Json.Str "")
  = ([], Ok "Battery is 87.3%").
Proof.
  exact (proj1 (battery_one_decimal Example.laptop (Json.Str "") eq_refl)).
Defined.

(** *** Setting the volume *)

Lemma set_sinks_trace (volume : Z) (f : Py.float) (sinks : list string) :
  Py.float_of_int volume = Some f ->
  set_sinks volume sinks
  = (map (fun sink =>
            PulseVolumeSetAllChans sink (SFdiv Py.prec Py.emax f hundred))
         sinks, Ok tt).
Proof.
  intros Hf. induction sinks as [| sink sinks IH]; cbn [set_sinks map].
  - reflexivity.
  - unfold volume_fraction. rewrite Hf. autorewrite with monad.
    rewrite IH. reflexivity.
Qed.

Lemma set_volume_command (h : Host) (s : string) (u : Json.value) :
  processCommand h (Json.Str "set volume") (Json.Str s) u
  = match Py.int (Py.remove_char "%" s) with
    | None => ret "Invalid percentage"
    | Some volume => set_volume h volume ;; ret "Volume set"
    end.
Proof.
  unfold processCommand. simpl Json.eq_str. cbv iota.
  unfold as_str. rewrite bind_ret_l. reflexivity.
Qed.

Lemma float_of_55 :
  Py.float_of_int 55 = Some (binary_normalize Py.prec Py.emax 55 0 false).
Proof. vm_compute. reflexivity. Qed.

(** C8. "set volume" with "55%" on a machine whose audio server accepts
    answers "Volume set", and every sink is given the float 0.55. *)
Theorem set_volume_55 (h : Host) (sinks : list string) (u : Json.value) :
  pulse_sinks h = Some sinks ->
  processCommand h (Json.Str "set volume") (Json.Str "55%") u
  = ((PulseConnect "setting-volume"
      :: map (fun sink => PulseVolumeSetAllChans sink (Py.float_lit 55 100))
             sinks
      ++ [PulseClose])%list,
     Ok "Volume set").
Proof.
  intros Hs. rewrite set_volume_command.
  change (Py.int (Py.remove_char "%" "55%")) with (Some 55).
  unfold set_volume. rewrite Hs.
  rewrite (set_sinks_trace 55 _ sinks float_of_55).
  fold hundred. unfold Py.float_lit. fold hundred.
  cbv [bind ret emit try_finally]. rewrite app_nil_r. reflexivity.
Qed.

Lemma set_volume_55_witness :
  processCommand Example.laptop (Json.Str "set volume") (Json.Str "55%")
    (Json.Str "")
  = ([PulseConnect "setting-volume";
      PulseVolumeSetAllChans "speakers" (Py.float_lit 55 100);
      PulseVolumeSetAllChans "hdmi" (Py.float_lit 55 100);
      PulseClose],
     Ok "Volume set").
Proof.
  exact (set_volume_55 Example.laptop ["speakers"; "hdmi"] (Json.Str "")
           eq_refl).
Defined.





(** *** The slow search *)

Lemma truthy_Str (s : string) : s <> "" -> Json.truthy (Json.Str s) = true.
Proof. destruct s; [congruence | reflexivity]. Qed.

Lemma locate_command (h : Host) (x u : Json.value) :
  Json.truthy x = true ->
  processCommand h (Json.Str "locate") x u
  = try_except
      (emit (LocateSubmit x) ;;
       found <- with_timeout slow_budget_ms (locate h x) ;;
       ret ("Results: " ++ found))
      is_TimeoutError
      (ret "Timed out").
Proof.
  intros Hx. unfold processCommand. simpl Json.eq_str. cbv iota.
  rewrite Hx. reflexivity.
Qed.

(** C6. "locate" with a non-empty pattern: a search that is back within
    3.5 seconds is answered with its result; one that is not back by
    then, is back later, or never, is answered "Timed out" whatever it
    finds. *)
Theorem locate_budget (h : Host) (pattern : string) (u : Json.value) :
  pattern <> "" ->
  let x := Json.Str pattern in
  (forall ms found,
      locate h x = Done ms found -> ms <= 3500 ->
      processCommand h (Json.Str "locate") x u
      = ([LocateSubmit x], Ok ("Results: " ++ found)))
  /\ (forall ms found,
      locate h x = Done ms found -> 3500 < ms ->
      processCommand h (Json.Str "locate") x u
      = ([LocateSubmit x], Ok "Timed out"))
  /\ (locate h x = Never ->
      processCommand h (Json.Str "locate") x u
      = ([LocateSubmit x], Ok "Timed out")).
Proof.
  intros Hp x.
  pose proof (locate_command h x u (truthy_Str pattern Hp)) as Hc.
  repeat split.
  - intros ms found Hl Hms. rewrite Hc, Hl. unfold with_timeout, slow_budget_ms.
    destruct (Z.leb_spec ms 3500) as [_ | Hgt]; [reflexivity | lia].
  - intros ms found Hl Hms. rewrite Hc, Hl. unfold with_timeout, slow_budget_ms.
    destruct (Z.leb_spec ms 3500) as [Hle | _]; [lia | reflexivity].
  - intros Hl. rewrite Hc, Hl. reflexivity.
Qed.

Lemma locate_budget_witness :
  processCommand Example.laptop (Json.Str "locate") (Json.Str "hosts")
    (Json.Str "")
  = ([LocateSubmit (Json.Str "hosts")], Ok "Results: /etc/hosts ")
  /\ processCommand Example.laptop (Json.Str "locate") (Json.Str "passwd")
       (Json.Str "")
     = ([LocateSubmit (Json.Str "passwd")], Ok "Timed out").
Proof.
  split.
  - apply (proj1 (locate_budget Example.laptop "hosts" (Json.Str "")
                    ltac:(discriminate)) 1000 "/etc/hosts ").
    + reflexivity.
    + lia.
  - apply (proj2 (proj2 (locate_budget Example.laptop "passwd" (Json.Str "")
                           ltac:(discriminate)))).
    reflexivity.
Defined.

(** *** Commands behind a capability check *)

Lemma dbus_check (h : Host) (check : string) :
  (r <- dbus_call h SystemBus login1 check [] ;; ret (String.eqb r "yes"))
  = ([DBusCall SystemBus login1 check []],
     match dbus_reply h SystemBus login1 check with
     | Some reply => Ok (String.eqb reply "yes")
     | None => Raise DBusException
     end).
Proof.
  unfold dbus_call. rewrite bind_emit.
  destruct (dbus_reply h SystemBus login1 check); reflexivity.
Qed.

Lemma dbus_action (h : Host) (action : string) :
  trace (dbus_call h SystemBus login1 action [true] ;; ret tt)
  = [DBusCall SystemBus login1 action [true]].
Proof.
  unfold dbus_call. rewrite bind_emit.
  destruct (dbus_reply h SystemBus login1 action); reflexivity.
Qed.

(** Open the entries of [gated_commands] one by one. *)
Ltac each_gated H :=
  repeat (destruct H as [H | H]; [injection H as <- <- <- <- <- <- |]);
  [ .. | destruct H ].

(** C7. For "power off", "sleep" and "reboot": when the capability check
    says no, the answer is "Cannot <name>", the check is the only call
    made and nothing is scheduled, so the action never runs; when it says
    yes, the action is scheduled two seconds ahead, the confirmation is
    returned, and the scheduled method makes the D-Bus call of the
    action once it is due. *)
Theorem preflight_gate (h : Host) (x u : Json.value)
  (name : string) (can : Host -> M bool) (check : string)
  (cb : Callback) (action confirmation : string) :
  In (name, can, check, cb, action, confirmation) gated_commands ->
  let asked := DBusCall SystemBus login1 check [] in
  (result (can h) = Ok false ->
   processCommand h (Json.Str name) x u = ([asked], Ok ("Cannot " ++ name))
   /\ forall elapsed, due elapsed (trace (processCommand h (Json.Str name) x u))
                      = [])
  /\ (result (can h) = Ok true ->
      processCommand h (Json.Str name) x u
      = ([asked; AddTimeout 2000 cb], Ok confirmation)
      /\ (forall elapsed, 2000 <= elapsed ->
            due elapsed (trace (processCommand h (Json.Str name) x u)) = [cb])
      /\ trace (fire h cb) = [DBusCall SystemBus login1 action [true]]).
Proof.
  intros Hin asked. subst asked. each_gated Hin.
  all: unfold processCommand; simpl Json.eq_str; cbv iota;
    unfold can_poweroff, can_sleep, can_reboot; rewrite dbus_check;
    destruct (dbus_reply h SystemBus login1 _) as [reply |];
    cbn [result snd];
    (split; intros Hr; [| split; [| split]]);
    try discriminate Hr;
    injection Hr as Hr; cbn [bind]; rewrite ?Hr; cbn.
  all: first
    [ split; [reflexivity | intros elapsed; reflexivity]
    | reflexivity
    | intros elapsed He; unfold deferral_ms;
      destruct (Z.leb_spec 2000 elapsed); [reflexivity | lia]
    | unfold do_poweroff, do_sleep, do_reboot; apply dbus_action ].
Qed.

Lemma preflight_gate_witness :
  processCommand Example.laptop (Json.Str "sleep") (Json.Str "") (Json.Str "")
  = ([DBusCall SystemBus login1 "CanSuspend" []], Ok "Cannot sleep")
  /\ processCommand Example.laptop (Json.Str "reboot") (Json.Str "")
       (Json.Str "")
     = ([DBusCall SystemBus login1 "CanReboot" [];
         AddTimeout 2000 cmd_reboot], Ok "Rebooting").
Proof.
  split.
  - apply (proj1 (preflight_gate Example.laptop (Json.Str "") (Json.Str "")
                    "sleep" can_sleep "CanSuspend" cmd_sleep "Suspend"
                    "Sleeping" ltac:(simpl; tauto))).
    reflexivity.
  - apply (proj2 (preflight_gate Example.laptop (Json.Str "") (Json.Str "")
                    "reboot" can_reboot "CanReboot" cmd_reboot "Reboot"
                    "Rebooting" ltac:(simpl; tauto))).
    reflexivity.
Defined.

(** *** The connection *)

Lemma connects_app (t1 t2 : list Event) :
  connects (t1 ++ t2) = (connects t1 + connects t2)%nat.
Proof.
  induction t1 as [| ev t1 IH]; [reflexivity |].
  destruct ev; simpl; rewrite ?IH; reflexivity.
Qed.

Lemma connect_handshakes (hs : Handshake) (c : WSClient.t) :
  connects (trace (snd (connect hs c))) = 1%nat.
Proof. destruct hs; reflexivity. Qed.

Lemma keep_alive_connected (hs : Handshake) (c : WSClient.t) (sock : Socket) :
  ws c = Some sock -> keep_alive hs c = (c, ret false).
Proof. intros Hw. unfold keep_alive. rewrite Hw. reflexivity. Qed.

Section Connection.

Variable h : Host.

Lemma tick_connected (a : Agent.t) (hs : Handshake) (sock : Socket) :
  ws (Agent.client a) = Some sock -> Agent.step h a (Agent.Tick hs) = a.
Proof.
  intros Hw. destruct a as [c rd lv hist]. simpl in Hw.
  unfold Agent.step. cbn [Agent.client].
  rewrite (keep_alive_connected hs c sock Hw).
  unfold Agent.connected, ret. cbn. rewrite app_nil_r.
  destruct (ws c); reflexivity.
Qed.

Lemma consistent_start (hs : Handshake) (u : string) :
  Agent.consistent (Agent.start hs u).
Proof. destruct hs; cbv; auto. Qed.

Lemma drop_self (sock : Socket) : Agent.drop (Some sock) [sock] = [].
Proof. simpl. rewrite Nat.eqb_refl. reflexivity. Qed.

Lemma consistent_step (a : Agent.t) (i : Agent.Input) :
  Agent.consistent a -> Agent.consistent (Agent.step h a i).
Proof.
  destruct a as [c rd lv hist]. unfold Agent.consistent. cbn.
  destruct i as [hs | r].
  - cbn. unfold keep_alive. destruct (ws c) as [sock |] eqn:Hw.
    + intros ->. cbn. rewrite Hw. reflexivity.
    + intros [-> ->]. destruct hs; cbn; rewrite ?Hw; auto.
  - cbn. destruct rd.
    + destruct r as [| [msg |]]; cbn.
      * destruct (ws c) as [sock |]; [| intros [_ Hf]; discriminate Hf].
        intros ->. rewrite drop_self. auto.
      * destruct (dispatch h c msg) as [tr res]. cbn.
        destruct (ws c); [auto |]. intros [_ Hf]. discriminate Hf.
      * destruct (ws c); [auto |]. intros [_ Hf]. discriminate Hf.
    + cbn. auto.
Qed.

Lemma consistent_steps (inputs : list Agent.Input) (a : Agent.t) :
  Agent.consistent a -> Agent.consistent (Agent.steps h a inputs).
Proof.
  revert a. induction inputs as [| i inputs IH]; intros a Ha; [exact Ha |].
  apply IH, consistent_step, Ha.
Qed.

Lemma consistent_one_socket (a : Agent.t) :
  Agent.consistent a -> (List.length (Agent.live a) <= 1)%nat.
Proof.
  unfold Agent.consistent. destruct (ws (Agent.client a)).
  - intros ->. simpl. lia.
  - intros [-> _]. simpl. lia.
Qed.

Lemma consistent_reading (a : Agent.t) :
  Agent.consistent a -> Agent.reading a = true ->
  exists sock, ws (Agent.client a) = Some sock /\ Agent.live a = [sock].
Proof.
  unfold Agent.consistent. destruct (ws (Agent.client a)) as [sock |].
  - intros Hl _. exists sock. auto.
  - intros [_ Hr] Ht. congruence.
Qed.

Lemma history_connected (a : Agent.t) (out : WSClient.t * M bool) :
  Agent.history (Agent.connected a out)
  = (Agent.history a ++ trace (snd out))%list.
Proof.
  destruct out as [c' [tr res]]. unfold Agent.connected.
  destruct res as [[|] |]; destruct (ws c'); reflexivity.
Qed.

Lemma ticks_connected (ticks : list Handshake) (a : Agent.t)
  (sock : Socket) :
  ws (Agent.client a) = Some sock ->
  Agent.steps h a (map Agent.Tick ticks) = a.
Proof.
  intros Hw. induction ticks as [| hs ticks IH]; [reflexivity |].
  cbn [map]. unfold Agent.steps. cbn [fold_left].
  rewrite (tick_connected a hs sock Hw). exact IH.
Qed.

(** C1, on the code.  An error frame ends the read loop through [break]
    and leaves [self.ws] set: no later tick of the timer reconnects, the
    process has made the one handshake of its start and nothing reads
    the socket any more. *)
Theorem error_frame_not_retried (u : string) (sock : Socket)
  (text : Json.value) (rest : list Read) (ticks : list Handshake) :
  let frame := Message (Some (Json.Obj [("error", text)])) in
  let a := Agent.start (Opened sock) u in
  let a' := Agent.steps h a (Agent.Recv frame :: map Agent.Tick ticks) in
  run h (Agent.client a) (frame :: rest)
  = (Agent.client a, [Log Error (Object text)], Finished)
  /\ Agent.reading a' = false
  /\ ws (Agent.client a') = Some sock
  /\ connects (Agent.history a') = 1%nat.
Proof.
  intros frame a a'. split; [reflexivity |].
  subst a'. unfold Agent.steps. cbn [fold_left].
  fold (Agent.steps h (Agent.step h a (Agent.Recv frame))
          (map Agent.Tick ticks)).
  rewrite (ticks_connected ticks _ sock) by reflexivity.
  repeat split.
Qed.

(** C2, as the code has it.  [connect] starts a handshake on every call;
    the check of [self.ws] is in [keep_alive].  A process driven by ticks
    and reads therefore holds at most one socket at any time; a tick
    while a socket is held changes nothing; and once a read has returned
    the end of the stream, [self.ws] is [None], no socket is held, and the
    next tick starts exactly one handshake. *)
Theorem one_socket (first : Handshake) (u : string)
  (inputs : list Agent.Input) (hs : Handshake) :
  let a := Agent.steps h (Agent.start first u) inputs in
  (List.length (Agent.live a) <= 1)%nat
  /\ (forall c, connects (trace (snd (connect hs c))) = 1%nat)
  /\ (forall sock, ws (Agent.client a) = Some sock ->
        Agent.step h a (Agent.Tick hs) = a)
  /\ (Agent.reading a = true ->
      let a' := Agent.step h a (Agent.Recv EndOfStream) in
      ws (Agent.client a') = None
      /\ Agent.live a' = []
      /\ connects (Agent.history (Agent.step h a' (Agent.Tick hs)))
         = S (connects (Agent.history a'))).
Proof.
  intros a.
  assert (Ha : Agent.consistent a)
    by (apply consistent_steps, consistent_start).
  split; [apply consistent_one_socket, Ha |].
  split; [intros c; apply connect_handshakes |].
  split; [intros sock Hw; apply (tick_connected a hs sock Hw) |].
  intros Hr a'.
  destruct (consistent_reading a Ha Hr) as [sock [Hw Hl]].
  subst a'. destruct a as [c rd lv hist]. cbn in Hr, Hw, Hl |- *.
  subst rd lv. cbn. rewrite Hw.
  split; [reflexivity |].
  split; [apply drop_self |].
  rewrite history_connected. cbn [Agent.history].
  rewrite connects_app.
  destruct hs; cbn; lia.
Qed.

End Connection.

(** C2, as the specification has it, fails: [connect] has no check of
    the state, and a call on a connected client starts a handshake and
    replaces the socket. *)
Lemma connect_not_guarded :
  ~ (forall (hs : Handshake) (c : WSClient.t) (sock : Socket),
       ws c = Some sock ->
       connects (trace (snd (connect hs c))) = 0%nat
       /\ fst (connect hs c) = c).
Proof.
  intros H.
  destruct (H (Opened 2%nat) Example.online 1%nat eq_refl) as [Hn _].
  discriminate Hn.
Qed.

Lemma one_socket_witness :
  let a := Agent.start (Opened 1%nat) "wss://wopto.net:42770" in
  let a' := Agent.step Example.laptop a (Agent.Recv EndOfStream) in
  Agent.step Example.laptop a (Agent.Tick (Opened 2%nat)) = a
  /\ ws (Agent.client a') = None
  /\ Agent.live a' = []
  /\ connects (Agent.history
                 (Agent.step Example.laptop a' (Agent.Tick (Opened 2%nat))))
     = S (connects (Agent.history a')).
Proof.
  intros a a'.
  pose proof (one_socket Example.laptop (Opened 1%nat)
                "wss://wopto.net:42770" [] (Opened 2%nat)) as H.
  cbv zeta in H. destruct H as [_ [_ [Htick Heof]]].
  split.
  - apply (Htick 1%nat). reflexivity.
  - apply Heof. reflexivity.
Defined.

(** *** Frames of no known shape *)

Lemma py_in_absent (k : string) (members : list (string * Json.value)) :
  Json.lookup k members = None -> py_in k (Json.Obj members) = ret false.
Proof. intros Hk. unfold py_in. rewrite Hk. reflexivity. Qed.

Lemma dispatch_unrecognized (h : Host) (c : WSClient.t)
  (members : list (string * Json.value)) :
  Json.lookup "error" members = None ->
  Json.lookup "query" members = None ->
  Json.lookup "command" members = None ->
  dispatch h c (Json.Obj members)
  = ([Log Warning (TextObject "Unknown message: " (Json.Obj members))],
     Ok Continue).
Proof.
  intros He Hq Hc. unfold dispatch.
  rewrite (py_in_absent _ _ He), (py_in_absent _ _ Hq),
    (py_in_absent _ _ Hc).
  autorewrite with monad. reflexivity.
Qed.

(** C3, as the code has it.  A frame that decodes to an object with none
    of the keys "error", "query" and "command" is logged as a warning,
    nothing is written to the socket, and the loop goes on with the next
    read.  A frame that [json.loads] refuses is not caught: [ValueError]
    ends the loop, and the frames after it are not read. *)
Theorem unrecognized_frame (h : Host) (c : WSClient.t)
  (members : list (string * Json.value)) (rest : list Read) :
  Json.lookup "error" members = None ->
  Json.lookup "query" members = None ->
  Json.lookup "command" members = None ->
  let msg := Json.Obj members in
  let warning := Log Warning (TextObject "Unknown message: " msg) in
  turn h c (Message (Some msg)) = (c, ([warning], Ok Continue))
  /\ run h c (Message (Some msg) :: rest)
     = (let '(c', tr, st) := run h c rest in (c', warning :: tr, st))
  /\ run h c (Message None :: rest) = (c, [], Died ValueError).
Proof.
  intros He Hq Hc msg warning.
  assert (Ht : turn h c (Message (Some msg)) = (c, ([warning], Ok Continue))).
  { unfold turn. subst msg warning.
    rewrite (dispatch_unrecognized h c members He Hq Hc). reflexivity. }
  split; [exact Ht |].
  split; [| reflexivity].
  cbn [run]. rewrite Ht. destruct (run h c rest) as [[c' tr] st].
  reflexivity.
Qed.

Lemma unrecognized_frame_witness :
  run Example.laptop Example.online
    [Message (Some (Json.Obj [("hello", Json.Str "world")]));
     Example.query_frame "battery" ""]
  = (Example.online,
     [Log Warning (TextObject "Unknown message: "
                     (Json.Obj [("hello", Json.Str "world")]));
      WriteMessage 1%nat (response "Battery is 87.3%")],
     Reading).
Proof.
  exact (proj1 (proj2 (unrecognized_frame Example.laptop Example.online
                        [("hello", Json.Str "world")]
                        [Example.query_frame "battery" ""]
                        eq_refl eq_refl eq_refl))).
Defined.

(** C3, as the specification has it, fails: a frame that is not JSON, or
    a "query" object without its "value", raises an exception that
    nothing catches; the loop ends and the next frame gets no answer. *)
Lemma decode_failure_kills_loop :
  run Example.laptop Example.online
    [Message None; Example.query_frame "battery" ""]
  = (Example.online, [], Died ValueError)
  /\ run Example.laptop Example.online
       [Message (Some (Json.Obj [("query", Json.Obj [])]));
        Example.query_frame "battery" ""]
     = (Example.online, [], Died (KeyError "value")).
Proof. split; reflexivity. Qed.

(* ================================================================== *)
(** ** Further properties of the handlers and of the loop *)
(* ================================================================== *)

(** *** What a handler leaves in the trace *)

Lemma trace_bind {A B} (m : M A) (k : A -> M B) :
  trace (bind m k)
  = (trace m ++ match result m with
                | Ok a => trace (k a)
                | Raise _ => []
                end)%list.
Proof.
  destruct m as [t [a | e]]; cbn.
  - destruct (k a); reflexivity.
  - rewrite app_nil_r. reflexivity.
Qed.

Lemma find_process_silent (search : string) (procs : list (option string)) :
  trace (find_process search procs) = [].
Proof.
  induction procs as [| [name |] procs IH]; cbn; try reflexivity.
  destruct (Py.contains search (Py.lower name)); [reflexivity | exact IH].
Qed.

Lemma query_trace (h : Host) (value x : Json.value) :
  trace (processQuery h value x) = [].
Proof.
  unfold processQuery.
  repeat match goal with
         | |- context [if Json.eq_str ?a ?b then _ else _] =>
             destruct (Json.eq_str a b)
         end; try reflexivity.
  - destruct (sensors_battery h); reflexivity.
  - rewrite trace_bind. destruct x; cbn; try reflexivity.
    rewrite trace_bind, find_process_silent. cbn.
    destruct (result (find_process _ _)) as [[|] |]; reflexivity.
Qed.

(** X1. A query never acts on the machine or on the network: whatever
    the name and the argument, and whether it answers or raises, its
    trace is empty. *)
Theorem processQuery_silent (h : Host) (value x : Json.value) :
  trace (processQuery h value x) = [].
Proof. apply query_trace. Qed.

Lemma offline_app (t1 t2 : list Event) :
  offline (t1 ++ t2) = offline t1 && offline t2.
Proof. apply forallb_app. Qed.

Lemma offline_bind {A B} (m : M A) (k : A -> M B) :
  offline (trace m) = true ->
  (forall a, offline (trace (k a)) = true) ->
  offline (trace (bind m k)) = true.
Proof.
  intros Hm Hk. rewrite trace_bind, offline_app, Hm.
  destruct (result m); [apply Hk | reflexivity].
Qed.

Lemma offline_try_except {A} (m handler : M A) (catches : Exn -> bool) :
  offline (trace m) = true ->
  offline (trace handler) = true ->
  offline (trace (try_except m catches handler)) = true.
Proof.
  intros Hm Hh. destruct m as [t [a | e]]; unfold try_except, trace in *;
    cbn [fst] in *; [exact Hm |].
  destruct (catches e); [| exact Hm].
  destruct handler as [t' r]. cbn [fst] in *. rewrite offline_app, Hm, Hh.
  reflexivity.
Qed.

Lemma offline_dbus_call (h : Host) (bus : Bus) (iface method : string)
  (args : list bool) :
  offline (trace (dbus_call h bus iface method args)) = true.
Proof.
  unfold dbus_call. apply offline_bind; [reflexivity |].
  intros _. destruct (dbus_reply h bus iface method); reflexivity.
Qed.

Lemma offline_set_sinks (volume : Z) (sinks : list string) :
  offline (trace (set_sinks volume sinks)) = true.
Proof.
  induction sinks as [| sink sinks IH]; [reflexivity |].
  cbn [set_sinks]. apply offline_bind.
  - unfold volume_fraction. destruct (Py.float_of_int volume); reflexivity.
  - intros v. apply offline_bind; [reflexivity | intros _; exact IH].
Qed.

Lemma offline_set_volume (h : Host) (volume : Z) :
  offline (trace (set_volume h volume)) = true.
Proof.
  unfold set_volume. apply offline_bind; [reflexivity |]. intros _.
  destruct (pulse_sinks h) as [sinks |]; [| reflexivity].
  unfold try_finally.
  pose proof (offline_set_sinks volume sinks) as Hs.
  destruct (set_sinks volume sinks) as [t r]. unfold trace in *.
  cbn [fst] in *. rewrite offline_app, Hs. reflexivity.
Qed.

Lemma offline_with_timeout {A} (budget : Z) (fut : Future A) :
  offline (trace (with_timeout budget fut)) = true.
Proof.
  destruct fut as [ms a | ms e |]; cbn; try reflexivity;
    destruct (ms <=? budget); reflexivity.
Qed.

Lemma offline_dropbox_file (h : Host) (prefix : string) :
  offline (trace (dropbox_file h prefix)) = true.
Proof. unfold dropbox_file. destruct (environ_HOME h); reflexivity. Qed.

(** Close a goal on the trace of a handler, computation by computation. *)
Ltac stay_offline :=
  repeat first
    [ reflexivity
    | apply offline_dbus_call
    | apply offline_set_volume
    | apply offline_with_timeout
    | apply offline_dropbox_file
    | apply offline_try_except
    | apply offline_bind; [| intros ?]
    | match goal with
      | |- context [if ?b then _ else _] => destruct b
      | |- context [match ?o with Some _ => _ | None => _ end] => destruct o
      end ].

Lemma command_trace (h : Host) (name x u : Json.value) :
  offline (trace (processCommand h name x u)) = true.
Proof.
  unfold processCommand, can_poweroff, can_sleep, can_reboot,
    cmd_lock, cmd_unlock, as_str.
  repeat match goal with
         | |- context [if Json.eq_str ?a ?b then _ else _] =>
             destruct (Json.eq_str a b)
         end; try reflexivity; try (destruct x); stay_offline.
Qed.

(** X2. No command touches the connection: whatever it is given and
    however it ends, a command neither starts a handshake nor writes a
    frame.  Only the read loop writes, and only [connect] connects. *)
Theorem processCommand_offline (h : Host) (name x u : Json.value) :
  offline (trace (processCommand h name x u)) = true
  /\ written (trace (processCommand h name x u)) = []
  /\ connects (trace (processCommand h name x u)) = 0%nat.
Proof.
  pose proof (command_trace h name x u) as Ho.
  split; [exact Ho |].
  induction (trace (processCommand h name x u)) as [| ev tr IH]; [auto |].
  destruct ev; cbn in *; try discriminate; auto.
Qed.

(** *** One turn of the read loop *)

Lemma py_in_present (k : string) (members : list (string * Json.value))
  (v : Json.value) :
  Json.lookup k members = Some v -> py_in k (Json.Obj members) = ret true.
Proof. intros Hk. unfold py_in. rewrite Hk. reflexivity. Qed.

Lemma getitem_present (k : string) (members : list (string * Json.value))
  (v : Json.value) :
  Json.lookup k members = Some v -> getitem (Json.Obj members) k = ret v.
Proof. intros Hk. unfold getitem. rewrite Hk. reflexivity. Qed.

Lemma getitem_absent (k : string) (members : list (string * Json.value)) :
  Json.lookup k members = None ->
  getitem (Json.Obj members) k = raise (KeyError k).
Proof. intros Hk. unfold getitem. rewrite Hk. reflexivity. Qed.

(** X3. A query frame with its two fields gets exactly one frame back, on
    the socket of the client, and the loop goes on; when the handler
    raises, nothing is written and the exception ends the loop.  A
    "command" entry beside the "query" one is not looked at. *)
Theorem query_answered (h : Host) (c : WSClient.t) (sock : Socket)
  (members fields : list (string * Json.value)) (value x : Json.value) :
  ws c = Some sock ->
  Json.lookup "error" members = None ->
  Json.lookup "query" members = Some (Json.Obj fields) ->
  Json.lookup "value" fields = Some value ->
  Json.lookup "x" fields = Some x ->
  turn h c (Message (Some (Json.Obj members)))
  = (c, match result (processQuery h value x) with
        | Ok answer => ([WriteMessage sock (response answer)], Ok Continue)
        | Raise e => ([], Raise e)
        end).
Proof.
  intros Hw He Hq Hv Hx. unfold turn, dispatch.
  rewrite (py_in_absent _ _ He). autorewrite with monad.
  rewrite (py_in_present _ _ _ Hq). autorewrite with monad.
  rewrite (getitem_present _ _ _ Hq). autorewrite with monad.
  rewrite (getitem_present _ _ _ Hv). autorewrite with monad.
  rewrite (getitem_present _ _ _ Hx). autorewrite with monad.
  pose proof (query_trace h value x) as Hs.
  destruct (processQuery h value x) as [t [answer | e]]; cbn in Hs; subst t.
  - unfold write_message. rewrite Hw. reflexivity.
  - reflexivity.
Qed.

Lemma query_answered_witness :
  turn Example.laptop Example.online
    (Message (Some (Json.Obj
       [("query", Json.Obj [("value", Json.Str "processor");
                            ("x", Json.Str "")]);
        ("command", Json.Obj [])])))
  = (Example.online,
     ([WriteMessage 1%nat (response "CPU usage is 0.1%")], Ok Continue)).
Proof.
  exact (query_answered Example.laptop Example.online 1%nat
           [("query", Json.Obj [("value", Json.Str "processor");
                                ("x", Json.Str "")]);
            ("command", Json.Obj [])]
           [("value", Json.Str "processor"); ("x", Json.Str "")]
           (Json.Str "processor") (Json.Str "")
           eq_refl eq_refl eq_refl eq_refl eq_refl).
Defined.

Lemma turn_command (h : Host) (c : WSClient.t) (sock : Socket)
  (members fields : list (string * Json.value))
  (command x u : Json.value) :
  ws c = Some sock ->
  Json.lookup "error" members = None ->
  Json.lookup "query" members = None ->
  Json.lookup "command" members = Some (Json.Obj fields) ->
  Json.lookup "command" fields = Some command ->
  Json.lookup "x" fields = Some x ->
  Json.lookup "url" fields = Some u ->
  turn h c (Message (Some (Json.Obj members)))
  = (c, match processCommand h command x u with
        | (tr, Ok answer) =>
            ((tr ++ [WriteMessage sock (response answer)])%list, Ok Continue)
        | (tr, Raise e) => (tr, Raise e)
        end).
Proof.
  intros Hw He Hq Hk Hc Hx Hu. unfold turn, dispatch.
  rewrite (py_in_absent _ _ He). autorewrite with monad.
  rewrite (py_in_absent _ _ Hq). autorewrite with monad.
  rewrite (py_in_present _ _ _ Hk). autorewrite with monad.
  rewrite (getitem_present _ _ _ Hk). autorewrite with monad.
  rewrite (getitem_present _ _ _ Hc). autorewrite with monad.
  rewrite (getitem_present _ _ _ Hx). autorewrite with monad.
  rewrite (getitem_present _ _ _ Hu). autorewrite with monad.
  destruct (processCommand h command x u) as [t [answer | e]].
  - unfold write_message. rewrite Hw. reflexivity.
  - reflexivity.
Qed.

(** X4. A command frame with its three fields gets exactly one frame
    back, written after everything the handler did, and the loop goes on;
    when the handler raises, what it did so far stays done, nothing is
    written and the exception ends the loop. *)
Theorem command_answered (h : Host) (c : WSClient.t) (sock : Socket)
  (members fields : list (string * Json.value))
  (command x u : Json.value) :
  ws c = Some sock ->
  Json.lookup "error" members = None ->
  Json.lookup "query" members = None ->
  Json.lookup "command" members = Some (Json.Obj fields) ->
  Json.lookup "command" fields = Some command ->
  Json.lookup "x" fields = Some x ->
  Json.lookup "url" fields = Some u ->
  turn h c (Message (Some (Json.Obj members)))
  = (c, match processCommand h command x u with
        | (tr, Ok answer) =>
            ((tr ++ [WriteMessage sock (response answer)])%list, Ok Continue)
        | (tr, Raise e) => (tr, Raise e)
        end).
Proof. apply turn_command. Qed.

Lemma command_answered_witness :
  turn Example.laptop Example.online (Example.command_frame "reboot" "")
  = (Example.online,
     ([DBusCall SystemBus login1 "CanReboot" [];
       AddTimeout 2000 cmd_reboot;
       WriteMessage 1%nat (response "Rebooting")], Ok Continue)).
Proof.
  exact (command_answered Example.laptop Example.online 1%nat
           [("command", Json.Obj [("command", Json.Str "reboot");
                                  ("x", Json.Str ""); ("url", Json.Str "")])]
           [("command", Json.Str "reboot"); ("x", Json.Str "");
            ("url", Json.Str "")]
           (Json.Str "reboot") (Json.Str "") (Json.Str "")
           eq_refl eq_refl eq_refl eq_refl eq_refl eq_refl eq_refl).
Defined.

(** X5. The "error" key comes first: an object that has it is logged and
    ends the loop, and a "query" or "command" entry of the same object is
    neither run nor answered. *)
Theorem error_key_first (h : Host) (c : WSClient.t)
  (members : list (string * Json.value)) (text : Json.value) :
  Json.lookup "error" members = Some text ->
  turn h c (Message (Some (Json.Obj members)))
  = (c, ([Log Error (Object text)], Ok Break)).
Proof.
  intros He. unfold turn, dispatch.
  rewrite (py_in_present _ _ _ He). autorewrite with monad.
  rewrite (getitem_present _ _ _ He). autorewrite with monad.
  reflexivity.
Qed.

Lemma error_key_first_witness :
  turn Example.laptop Example.online
    (Message (Some (Json.Obj
       [("command", Json.Obj [("command", Json.Str "power off");
                              ("x", Json.Str ""); ("url", Json.Str "")]);
        ("error", Json.Str "stop")])))
  = (Example.online, ([Log Error (Object (Json.Str "stop"))], Ok Break)).
Proof.
  exact (error_key_first Example.laptop Example.online
           [("command", Json.Obj [("command", Json.Str "power off");
                                  ("x", Json.Str ""); ("url", Json.Str "")]);
            ("error", Json.Str "stop")]
           (Json.Str "stop") eq_refl).
Defined.

(** X6. A request with a field missing is not run at all: a query needs
    "value" and "x", a command needs "command", "x" and "url" (which no
    handler reads); without one of them the loop ends with [KeyError] on
    the first missing key, before the handler is called. *)
Theorem missing_field (h : Host) (c : WSClient.t)
  (members fields : list (string * Json.value)) (k : string) :
  Json.lookup "error" members = None ->
  (Json.lookup "query" members = Some (Json.Obj fields) ->
   first_missing ["value"; "x"] fields = Some k ->
   turn h c (Message (Some (Json.Obj members))) = (c, ([], Raise (KeyError k))))
  /\ (Json.lookup "query" members = None ->
      Json.lookup "command" members = Some (Json.Obj fields) ->
      first_missing ["command"; "x"; "url"] fields = Some k ->
      turn h c (Message (Some (Json.Obj members)))
      = (c, ([], Raise (KeyError k)))).
Proof.
  intros He. split.
  - intros Hq Hm. unfold turn, dispatch.
    rewrite (py_in_absent _ _ He). autorewrite with monad.
    rewrite (py_in_present _ _ _ Hq). autorewrite with monad.
    rewrite (getitem_present _ _ _ Hq). autorewrite with monad.
    unfold getitem.
    cbn [first_missing] in Hm.
    destruct (Json.lookup "value" fields); [| injection Hm as <-; reflexivity].
    autorewrite with monad.
    destruct (Json.lookup "x" fields); [discriminate Hm |].
    injection Hm as <-. reflexivity.
  - intros Hq Hk Hm. unfold turn, dispatch.
    rewrite (py_in_absent _ _ He). autorewrite with monad.
    rewrite (py_in_absent _ _ Hq). autorewrite with monad.
    rewrite (py_in_present _ _ _ Hk). autorewrite with monad.
    rewrite (getitem_present _ _ _ Hk). autorewrite with monad.
    unfold getitem.
    cbn [first_missing] in Hm.
    destruct (Json.lookup "command" fields);
      [| injection Hm as <-; reflexivity].
    autorewrite with monad.
    destruct (Json.lookup "x" fields); [| injection Hm as <-; reflexivity].
    autorewrite with monad.
    destruct (Json.lookup "url" fields); [discriminate Hm |].
    injection Hm as <-. reflexivity.
Qed.

Lemma missing_field_witness :
  turn Example.laptop Example.online
    (Message (Some (Json.Obj
       [("command", Json.Obj [("command", Json.Str "lock");
                              ("x", Json.Str "")])])))
  = (Example.online, ([], Raise (KeyError "url"))).
Proof.
  exact (proj2 (missing_field Example.laptop Example.online
                  [("command", Json.Obj [("command", Json.Str "lock");
                                         ("x", Json.Str "")])]
                  [("command", Json.Str "lock"); ("x", Json.Str "")] "url"
                  eq_refl) eq_refl eq_refl eq_refl).
Defined.

(** *** The loop as a whole *)

Lemma written_app (t1 t2 : list Event) :
  written (t1 ++ t2) = (written t1 ++ written t2)%list.
Proof.
  induction t1 as [| ev t1 IH]; [reflexivity |].
  destruct ev; cbn; rewrite ?IH; reflexivity.
Qed.

Lemma offline_written (tr : list Event) :
  offline tr = true -> written tr = [] /\ connects tr = 0%nat.
Proof.
  induction tr as [| ev tr IH]; [auto |].
  destruct ev; cbn; try discriminate; exact IH.
Qed.

Lemma written_bind {A B} (m : M A) (k : A -> M B) :
  written (trace (bind m k))
  = (written (trace m) ++ match result m with
                          | Ok a => written (trace (k a))
                          | Raise _ => []
                          end)%list.
Proof.
  rewrite trace_bind, written_app. destruct (result m); reflexivity.
Qed.

Lemma connects_bind {A B} (m : M A) (k : A -> M B) :
  connects (trace (bind m k))
  = (connects (trace m) + match result m with
                          | Ok a => connects (trace (k a))
                          | Raise _ => 0
                          end)%nat.
Proof.
  rewrite trace_bind, connects_app. destruct (result m); reflexivity.
Qed.

Lemma py_in_silent (k : string) (msg : Json.value) : trace (py_in k msg) = [].
Proof. destruct msg; reflexivity. Qed.

Lemma getitem_silent (msg : Json.value) (k : string) :
  trace (getitem msg k) = [].
Proof.
  destruct msg; try reflexivity. cbn. destruct (Json.lookup k members);
    reflexivity.
Qed.

(** What one decoded frame puts on the network: nothing, or one response
    on the socket of the client. *)
Lemma dispatch_network (h : Host) (c : WSClient.t) (sock : Socket)
  (msg : Json.value) :
  ws c = Some sock ->
  (written (trace (dispatch h c msg)) = []
   \/ exists answer,
       written (trace (dispatch h c msg)) = [(sock, response answer)])
  /\ connects (trace (dispatch h c msg)) = 0%nat.
Proof.
  intros Hw.
  assert (Hwm : forall payload,
             write_message c payload = emit (WriteMessage sock payload))
    by (intros payload; unfold write_message; rewrite Hw; reflexivity).
  assert (Hq : forall v x, written (trace (processQuery h v x)) = []
                           /\ connects (trace (processQuery h v x)) = 0%nat)
    by (intros v x; rewrite query_trace; auto).
  assert (Hc : forall v x u,
             written (trace (processCommand h v x u)) = []
             /\ connects (trace (processCommand h v x u)) = 0%nat)
    by (intros v x u; apply offline_written, command_trace).
  unfold dispatch. split.
  - repeat first
      [ rewrite written_bind
      | rewrite py_in_silent
      | rewrite getitem_silent
      | rewrite Hwm
      | rewrite (proj1 (Hq _ _))
      | rewrite (proj1 (Hc _ _ _))
      | progress cbn [app written trace result fst snd emit ret]
      | match goal with
        | |- context [match result ?m with _ => _ end] => destruct (result m)
        | |- context [if ?b then _ else _] => destruct b
        end
      | left; reflexivity
      | right; eexists; reflexivity ].
  - repeat first
      [ rewrite connects_bind
      | rewrite py_in_silent
      | rewrite getitem_silent
      | rewrite Hwm
      | rewrite (proj2 (Hq _ _))
      | rewrite (proj2 (Hc _ _ _))
      | progress cbn [Nat.add connects trace result fst snd emit ret]
      | match goal with
        | |- context [match result ?m with _ => _ end] => destruct (result m)
        | |- context [if ?b then _ else _] => destruct b
        end
      | reflexivity ].
Qed.

Lemma turn_client (h : Host) (c : WSClient.t) (r : Read) :
  match turn h c r with
  | (c', (_, Ok Continue)) => c' = c
  | (c', (_, Ok Break)) => c' = c \/ (r = EndOfStream /\ c' = set_ws c None)
  | (c', (_, Raise _)) => c' = c
  end.
Proof.
  destruct r as [| [msg |]]; cbn; auto.
  destruct (dispatch h c msg) as [tr [[|] | e]]; auto.
Qed.

(** X7. Reading goes on where it stopped, and not past the end of the
    loop: the frames of a second batch are handled after those of the
    first when the loop is still reading, and are never looked at once
    the loop has ended, by [break] or by an exception. *)
Theorem run_app (h : Host) (c : WSClient.t) (reads1 reads2 : list Read) :
  run h c (reads1 ++ reads2)
  = match run h c reads1 with
    | (c1, tr1, Reading) =>
        let '(c2, tr2, st) := run h c1 reads2 in (c2, (tr1 ++ tr2)%list, st)
    | ended => ended
    end.
Proof.
  revert c. induction reads1 as [| r reads1 IH]; intros c.
  - cbn. destruct (run h c reads2) as [[c2 tr2] st]. reflexivity.
  - cbn [app run].
    destruct (turn h c r) as [c' [tr [[|] | e]]]; try reflexivity.
    rewrite IH. destruct (run h c' reads1) as [[c1 tr1] [| |]]; try reflexivity.
    destruct (run h c1 reads2) as [[c2 tr2] st].
    rewrite app_assoc. reflexivity.
Qed.

(** X8. The loop changes the client in one way only: it clears
    [self.ws] when a read returns the end of the stream, and then it has
    ended.  In every other case, whether it is still reading, has left
    on an error frame or has died of an exception, the client is as it
    was, socket included. *)
Theorem run_client (h : Host) (c : WSClient.t) (reads : list Read) :
  let '(c', _, st) := run h c reads in
  (c' = c \/ (c' = set_ws c None /\ st = Finished /\ In EndOfStream reads))
  /\ (~ In EndOfStream reads -> c' = c)
  /\ (st = Reading -> c' = c).
Proof.
  revert c. induction reads as [| r reads IH]; intros c; cbn [run].
  - auto.
  - pose proof (turn_client h c r) as Ht.
    destruct (turn h c r) as [c' [tr [[|] | e]]].
    + subst c'. specialize (IH c).
      destruct (run h c reads) as [[c'' tr'] st].
      destruct IH as [Hc [Hn Hr]]. split; [| split].
      * destruct Hc as [-> | [-> [-> Hin]]]; [left; reflexivity |].
        right. cbn. auto.
      * intros Hin. apply Hn. intros Hin'. apply Hin. right. exact Hin'.
      * exact Hr.
    + split; [| split].
      * destruct Ht as [-> | [-> ->]]; [left; reflexivity |].
        right. cbn. auto.
      * intros Hin. destruct Ht as [-> | [-> _]]; [reflexivity |].
        exfalso. apply Hin. left. reflexivity.
      * discriminate.
    + subst c'. split; [left; reflexivity | split; [reflexivity | discriminate]].
Qed.

Lemma run_client_witness :
  fst (fst (run Example.laptop Example.online
              [Example.query_frame "memory" ""; Example.error_frame]))
  = Example.online.
Proof.
  pose proof (run_client Example.laptop Example.online
                [Example.query_frame "memory" ""; Example.error_frame]) as H.
  destruct (run Example.laptop Example.online
              [Example.query_frame "memory" ""; Example.error_frame])
    as [[c' tr] st].
  destruct H as [_ [H _]]. apply H.
  cbv. intuition discriminate.
Defined.

(** X9. On a connected client the loop writes at most one frame per frame
    read, every one of them on the socket it reads from, and it never
    starts a handshake. *)
Theorem run_network (h : Host) (c : WSClient.t) (sock : Socket)
  (reads : list Read) :
  ws c = Some sock ->
  let tr := snd (fst (run h c reads)) in
  Forall (fun w => fst w = sock) (written tr)
  /\ (List.length (written tr) <= List.length reads)%nat
  /\ connects tr = 0%nat.
Proof.
  intros Hw. cbv zeta. induction reads as [| r reads IH]; cbn [run].
  - cbn. auto.
  - pose proof (turn_client h c r) as Ht.
    assert (Hturn :
      (written (trace (snd (turn h c r))) = []
       \/ exists answer,
           written (trace (snd (turn h c r))) = [(sock, response answer)])
      /\ connects (trace (snd (turn h c r))) = 0%nat).
    { destruct r as [| [msg |]]; cbn; auto.
      apply (dispatch_network h c sock msg Hw). }
    destruct (turn h c r) as [c' [tr [[|] | e]]]; cbn [snd trace fst] in *.
    + subst c'. destruct (run h c reads) as [[c'' tr'] st].
      cbn [fst snd] in *. rewrite written_app, connects_app, length_app.
      destruct IH as [Hf [Hl Hn]]. destruct Hturn as [Hwr ->].
      split; [| split; [| exact Hn]].
      * apply Forall_app. split; [| exact Hf].
        destruct Hwr as [-> | [answer ->]]; repeat constructor.
      * destruct Hwr as [-> | [answer ->]]; cbn; lia.
    + destruct Hturn as [Hwr ->].
      destruct Hwr as [-> | [answer ->]]; cbn;
        (split; [repeat constructor | split; [lia | reflexivity]]).
    + destruct Hturn as [Hwr ->].
      destruct Hwr as [-> | [answer ->]]; cbn;
        (split; [repeat constructor | split; [lia | reflexivity]]).
Qed.

Lemma run_network_witness :
  let tr := snd (fst (run Example.laptop Example.online
                        [Example.query_frame "memory" "";
                         Message (Some (Json.Obj []));
                         Example.command_frame "locate" ""])) in
  Forall (fun w => fst w = 1%nat) (written tr)
  /\ (List.length (written tr) <= 3)%nat
  /\ connects tr = 0%nat.
Proof.
  exact (run_network Example.laptop Example.online 1%nat
           [Example.query_frame "memory" "";
            Message (Some (Json.Obj []));
            Example.command_frame "locate" ""] eq_refl).
Defined.

(** *** Commands one by one *)

(** X10. The eight commands that are names only answer
    "Not implemented yet" and do nothing, whatever their argument. *)
Theorem placeholders (h : Host) (name : string) (x u : Json.value) :
  In name placeholder_commands ->
  processCommand h (Json.Str name) x u = ([], Ok "Not implemented yet").
Proof.
  intros Hin.
  repeat (destruct Hin as [<- | Hin]; [reflexivity |]).
  destruct Hin.
Qed.

Lemma placeholders_witness :
  processCommand Example.laptop (Json.Str "download") (Json.Str "x")
    (Json.Str "http://example.org/f")
  = ([], Ok "Not implemented yet").
Proof.
  apply (placeholders Example.laptop "download"). simpl. tauto.
Defined.

(** X11. "locate" with an argument that is empty, or false in any other
    way (null, zero, an empty list or dict), answers
    "Nothing to search for" and submits no search. *)
Theorem locate_nothing (h : Host) (x u : Json.value) :
  Json.truthy x = false ->
  processCommand h (Json.Str "locate") x u
  = ([], Ok "Nothing to search for").
Proof.
  intros Hx. unfold processCommand. simpl Json.eq_str. cbv iota.
  rewrite Hx. reflexivity.
Qed.

Lemma locate_nothing_witness :
  processCommand Example.laptop (Json.Str "locate") (Json.Str "") (Json.Str "")
  = ([], Ok "Nothing to search for").
Proof.
  exact (locate_nothing Example.laptop (Json.Str "") (Json.Str "") eq_refl).
Defined.

Lemma flatten_fold (f : string -> string) (l : list string) (init : string) :
  fold_left (fun acc p => acc ++ f p) l init = init ++ flatten (map f l).
Proof.
  revert init. induction l as [| p l IH]; intros init; cbn.
  - induction init as [| a init IHi]; cbn; [reflexivity |].
    rewrite <- IHi. reflexivity.
  - rewrite IH.
    clear IH. induction init as [| a init IHi]; cbn; [reflexivity |].
    rewrite IHi. reflexivity.
Qed.

(** X12. A search that is back in time is answered with "Results: "
    followed by each path found and a blank after each, in the order the
    database yields them; a search that finds nothing is answered
    "Results: ", with no path. *)
Theorem locate_results (h : Host) (x u : Json.value) (ms : Z)
  (paths : list string) :
  Json.truthy x = true ->
  plocate h x = Found ms paths ->
  ms <= 3500 ->
  processCommand h (Json.Str "locate") x u
  = ([LocateSubmit x],
     Ok ("Results: " ++ flatten (map (fun p => p ++ " ") paths))).
Proof.
  intros Hx Hf Hms. rewrite (locate_command h x u Hx).
  unfold locate. rewrite Hf. unfold with_timeout, slow_budget_ms.
  destruct (Z.leb_spec ms 3500) as [_ | Hgt]; [| lia].
  rewrite (flatten_fold (fun p => p ++ " ") paths ""). reflexivity.
Qed.

Lemma locate_results_witness :
  processCommand Example.laptop (Json.Str "locate") (Json.Str "hosts")
    (Json.Str "")
  = ([LocateSubmit (Json.Str "hosts")], Ok "Results: /etc/hosts ").
Proof.
  apply (locate_results Example.laptop (Json.Str "hosts") (Json.Str "")
           1000 ["/etc/hosts"]); [reflexivity | reflexivity | lia].
Defined.


(** X14. "lock" and "unlock" make the same D-Bus call, [SetActive] on the
    screen saver of the session bus, with [True] to lock and [False] to
    unlock, and answer "Locking" and "Unlocking"; when the call fails the
    exception leaves the handler and there is no answer. *)
Theorem lock_unlock (h : Host) (x u : Json.value) :
  let call b := DBusCall SessionBus screensaver "SetActive" [b] in
  (forall reply,
      dbus_reply h SessionBus screensaver "SetActive" = Some reply ->
      processCommand h (Json.Str "lock") x u = ([call true], Ok "Locking")
      /\ processCommand h (Json.Str "unlock") x u
         = ([call false], Ok "Unlocking"))
  /\ (dbus_reply h SessionBus screensaver "SetActive" = None ->
      processCommand h (Json.Str "lock") x u
      = ([call true], Raise DBusException)
      /\ processCommand h (Json.Str "unlock") x u
         = ([call false], Raise DBusException)).
Proof.
  intros call. subst call.
  split; [intros reply Hr | intros Hr]; split;
    unfold processCommand; simpl Json.eq_str; cbv iota;
    unfold cmd_lock, cmd_unlock, dbus_call; rewrite Hr;
    reflexivity.
Qed.

Lemma lock_unlock_witness :
  processCommand Example.laptop (Json.Str "lock") (Json.Str "") (Json.Str "")
  = ([DBusCall SessionBus screensaver "SetActive" [true]], Ok "Locking")
  /\ processCommand Example.laptop (Json.Str "unlock") (Json.Str "")
       (Json.Str "")
     = ([DBusCall SessionBus screensaver "SetActive" [false]],
        Ok "Unlocking").
Proof.
  exact (proj1 (lock_unlock Example.laptop (Json.Str "") (Json.Str "")) ""
           eq_refl).
Defined.

(** X15. "take a picture" and "screenshot" answer with the name of the
    file before anything is captured: the file is
    HOME/Dropbox/LinuxControl-Picture-<time>.png (or -Screenshot-), the
    capture is handed to the event loop under that same name, and the
    answer is the same when the camera later gives no frame and no file
    is written.  Without HOME the handler raises [KeyError] and nothing
    is scheduled. *)
Theorem capture_announced (h : Host) (x u : Json.value) :
  (forall home, environ_HOME h = Some home ->
     let picture := path_join (path_join home "Dropbox")
                      (stamp "LinuxControl-Picture-" (now h)) in
     let shot := path_join (path_join home "Dropbox")
                   (stamp "LinuxControl-Screenshot-" (now h)) in
     processCommand h (Json.Str "take a picture") x u
     = ([AddCallback (cmd_image picture)], Ok ("Taking picture " ++ picture))
     /\ fire h (cmd_image picture)
        = ((if camera_frame h then [ImWrite picture] else []), Ok tt)
     /\ processCommand h (Json.Str "screenshot") x u
        = ([AddCallback (cmd_screenshot shot)],
           Ok ("Taking screenshot " ++ shot))
     /\ fire h (cmd_screenshot shot)
        = ([OsSystem ("gnome-screenshot -f '" ++ shot ++ "'")], Ok tt))
  /\ (environ_HOME h = None ->
      processCommand h (Json.Str "take a picture") x u
      = ([], Raise (KeyError "HOME"))
      /\ processCommand h (Json.Str "screenshot") x u
         = ([], Raise (KeyError "HOME"))).
Proof.
  split.
  - intros home Hh picture shot. subst picture shot.
    split; [| split; [| split]].
    + unfold processCommand; simpl Json.eq_str; cbv iota.
      unfold dropbox_file. rewrite Hh. reflexivity.
    + unfold fire, do_image. destruct (camera_frame h); reflexivity.
    + unfold processCommand; simpl Json.eq_str; cbv iota.
      unfold dropbox_file. rewrite Hh. reflexivity.
    + reflexivity.
  - intros Hh. split;
      unfold processCommand; simpl Json.eq_str; cbv iota;
      unfold dropbox_file; rewrite Hh; reflexivity.
Qed.

Lemma capture_announced_witness :
  processCommand Example.laptop (Json.Str "take a picture") (Json.Str "")
    (Json.Str "")
  = ([AddCallback
        (cmd_image
           "/home/user/Dropbox/LinuxControl-Picture-2017-03-09-14h-05m-00s.png")],
     Ok "Taking picture /home/user/Dropbox/LinuxControl-Picture-2017-03-09-14h-05m-00s.png").
Proof.
  exact (proj1 (proj1 (capture_announced Example.laptop (Json.Str "")
                         (Json.Str "")) "/home/user" eq_refl)).
Defined.



Lemma set_sinks_overflow (volume : Z) (sink : string) (sinks : list string) :
  Py.float_of_int volume = None ->
  set_sinks volume (sink :: sinks) = ([], Raise OverflowError).
Proof.
  intros Hf. cbn [set_sinks]. unfold volume_fraction. rewrite Hf.
  reflexivity.
Qed.

(** X17. The connection to the audio server is closed however the block
    ends.  A number too large for a float raises [OverflowError] at the
    first sink: the connection is still closed, no sink is touched and
    there is no answer.  With no sink at all the division is never done
    and the answer is "Volume set" even for such a number.  When the
    server cannot be reached, [PulseError] leaves the handler. *)
Theorem volume_failures (h : Host) (s : string) (u : Json.value)
  (volume : Z) :
  Py.int (Py.remove_char "%" s) = Some volume ->
  (forall sink sinks,
      pulse_sinks h = Some (sink :: sinks) ->
      Py.float_of_int volume = None ->
      processCommand h (Json.Str "set volume") (Json.Str s) u
      = ([PulseConnect "setting-volume"; PulseClose], Raise OverflowError))
  /\ (pulse_sinks h = Some [] ->
      processCommand h (Json.Str "set volume") (Json.Str s) u
      = ([PulseConnect "setting-volume"; PulseClose], Ok "Volume set"))
  /\ (pulse_sinks h = None ->
      processCommand h (Json.Str "set volume") (Json.Str s) u
      = ([PulseConnect "setting-volume"], Raise PulseError)).
Proof.
  intros Hi. rewrite set_volume_command, Hi. unfold set_volume.
  split; [| split].
  - intros sink sinks Hs Hf.
    rewrite Hs, (set_sinks_overflow volume sink sinks Hf). reflexivity.
  - intros Hs. rewrite Hs. reflexivity.
  - intros Hs. rewrite Hs. reflexivity.
Qed.

Lemma volume_failures_witness :
  processCommand Example.laptop (Json.Str "set volume") (Json.Str huge_number)
    (Json.Str "")
  = ([PulseConnect "setting-volume"; PulseClose], Raise OverflowError)
  /\ processCommand (with_pulse Example.laptop (Some []))
       (Json.Str "set volume") (Json.Str huge_number) (Json.Str "")
     = ([PulseConnect "setting-volume"; PulseClose], Ok "Volume set")
  /\ processCommand (with_pulse Example.laptop None)
       (Json.Str "set volume") (Json.Str "55%") (Json.Str "")
     = ([PulseConnect "setting-volume"], Raise PulseError).
Proof.
  split; [| split].
  - apply (proj1 (volume_failures Example.laptop huge_number (Json.Str "")
                    (10 ^ 309) ltac:(vm_compute; reflexivity))
             "speakers" ["hdmi"]).
    + reflexivity.
    + vm_compute. reflexivity.
  - apply (proj1 (proj2 (volume_failures (with_pulse Example.laptop (Some []))
                           huge_number (Json.Str "") (10 ^ 309)
                           ltac:(vm_compute; reflexivity)))).
    reflexivity.
  - apply (proj2 (proj2 (volume_failures (with_pulse Example.laptop None)
                           "55%" (Json.Str "") 55 eq_refl))).
    reflexivity.
Defined.

(** *** Case and blanks in the "open" query *)

Lemma isspace_lower_char (c : ascii) :
  Py.isspace (Py.lower_char c) = Py.isspace c.
Proof. destruct c as [[] [] [] [] [] [] [] []]; reflexivity. Qed.

Lemma lower_char_twice (c : ascii) :
  Py.lower_char (Py.lower_char c) = Py.lower_char c.
Proof. destruct c as [[] [] [] [] [] [] [] []]; reflexivity. Qed.

Lemma lower_twice (s : string) : Py.lower (Py.lower s) = Py.lower s.
Proof.
  induction s as [| c s IH]; cbn; [reflexivity |].
  rewrite lower_char_twice, IH. reflexivity.
Qed.

Lemma lstrip_lower (s : string) :
  Py.lstrip (Py.lower s) = Py.lower (Py.lstrip s).
Proof.
  induction s as [| c s IH]; cbn; [reflexivity |].
  rewrite isspace_lower_char. destruct (Py.isspace c); [exact IH | reflexivity].
Qed.

Lemma rstrip_cons (c : ascii) (s : string) :
  Py.rstrip (String c s)
  = match Py.rstrip s with
    | EmptyString => if Py.isspace c then EmptyString else String c EmptyString
    | r => String c r
    end.
Proof. reflexivity. Qed.

Lemma rstrip_lower (s : string) :
  Py.rstrip (Py.lower s) = Py.lower (Py.rstrip s).
Proof.
  induction s as [| c s IH]; [reflexivity |].
  cbn [Py.lower]. rewrite !rstrip_cons, IH, isspace_lower_char.
  destruct (Py.rstrip s); cbn [Py.lower];
    [destruct (Py.isspace c) |]; reflexivity.
Qed.

Lemma strip_lower (s : string) : Py.strip (Py.lower s) = Py.lower (Py.strip s).
Proof. unfold Py.strip. rewrite lstrip_lower, rstrip_lower. reflexivity. Qed.

Lemma rstrip_twice (s : string) : Py.rstrip (Py.rstrip s) = Py.rstrip s.
Proof.
  induction s as [| c s IH]; [reflexivity |].
  rewrite rstrip_cons.
  destruct (Py.rstrip s) as [| a r] eqn:Hr.
  - destruct (Py.isspace c) eqn:Hc; [reflexivity |].
    rewrite rstrip_cons. cbn [Py.rstrip]. rewrite Hc. reflexivity.
  - rewrite rstrip_cons, IH. reflexivity.
Qed.

Lemma lstrip_head (s : string) :
  match Py.lstrip s with
  | EmptyString => True
  | String c _ => Py.isspace c = false
  end.
Proof.
  induction s as [| c s IH]; cbn; [exact I |].
  destruct (Py.isspace c) eqn:Hc; [exact IH | exact Hc].
Qed.

Lemma lstrip_rstrip (s : string) :
  match s with
  | EmptyString => True
  | String c _ => Py.isspace c = false
  end ->
  Py.lstrip (Py.rstrip s) = Py.rstrip s.
Proof.
  destruct s as [| c s]; [reflexivity |]. intros Hc. rewrite rstrip_cons.
  destruct (Py.rstrip s); [rewrite Hc |]; cbn [Py.lstrip]; rewrite Hc;
    reflexivity.
Qed.

Lemma strip_twice (s : string) : Py.strip (Py.strip s) = Py.strip s.
Proof.
  unfold Py.strip.
  rewrite (lstrip_rstrip (Py.lstrip s) (lstrip_head s)).
  apply rstrip_twice.
Qed.

Lemma find_process_lowered (search : string) (procs : list (option string)) :
  find_process search (map (option_map Py.lower) procs)
  = find_process search procs.
Proof.
  induction procs as [| [name |] procs IH]; cbn; try reflexivity.
  rewrite lower_twice, IH. reflexivity.
Qed.

(** X18. The "open" query is blind to case and to surrounding blanks, on
    both sides: the answer, echo included, is the same for an argument,
    for its lowercase and for its stripped form, and the same when the
    process names are replaced by their lowercase. *)
Theorem open_case_blind (h : Host) (x : string) :
  processQuery h (Json.Str "open") (Json.Str (Py.lower x))
  = processQuery h (Json.Str "open") (Json.Str x)
  /\ processQuery h (Json.Str "open") (Json.Str (Py.strip x))
     = processQuery h (Json.Str "open") (Json.Str x)
  /\ processQuery
       (with_processes h (map (option_map Py.lower) (process_names h)))
       (Json.Str "open") (Json.Str x)
     = processQuery h (Json.Str "open") (Json.Str x).
Proof.
  unfold processQuery. simpl Json.eq_str. cbv iota.
  unfold as_str. autorewrite with monad.
  split; [| split].
  - rewrite strip_lower, lower_twice. reflexivity.
  - rewrite strip_twice. reflexivity.
  - cbn [process_names with_processes].
    rewrite find_process_lowered. reflexivity.
Qed.

(** *** Answering before acting *)

Lemma gated_allowed (h : Host) (x u : Json.value)
  (name : string) (can : Host -> M bool) (check : string)
  (cb : Callback) (action confirmation : string) :
  In (name, can, check, cb, action, confirmation) gated_commands ->
  dbus_reply h SystemBus login1 check = Some "yes" ->
  processCommand h (Json.Str name) x u
  = ([DBusCall SystemBus login1 check []; AddTimeout 2000 cb],
     Ok confirmation).
Proof.
  intros Hin Hr. each_gated Hin.
  all: unfold processCommand; simpl Json.eq_str; cbv iota;
    unfold can_poweroff, can_sleep, can_reboot; rewrite dbus_check, Hr;
    reflexivity.
Qed.

(** X19. A command behind a capability check is answered before it acts:
    when the check says yes, the turn of the loop ends with the
    confirmation written on the socket, the call that powers off,
    suspends or reboots is not part of it, and the event loop runs
    nothing of it before two seconds have passed. *)
Theorem answer_before_action (h : Host) (c : WSClient.t) (sock : Socket)
  (x u : Json.value)
  (name : string) (can : Host -> M bool) (check : string)
  (cb : Callback) (action confirmation : string) :
  In (name, can, check, cb, action, confirmation) gated_commands ->
  dbus_reply h SystemBus login1 check = Some "yes" ->
  ws c = Some sock ->
  let tr := [DBusCall SystemBus login1 check []; AddTimeout 2000 cb;
             WriteMessage sock (response confirmation)] in
  turn h c (command_message name x u) = (c, (tr, Ok Continue))
  /\ ~ In (DBusCall SystemBus login1 action [true]) tr
  /\ (forall elapsed, elapsed < 2000 -> due elapsed tr = []).
Proof.
  intros Hin Hr Hw tr. subst tr. split; [| split].
  - unfold command_message.
    rewrite (turn_command h c sock
               [("command", Json.Obj [("command", Json.Str name); ("x", x);
                                      ("url", u)])]
               [("command", Json.Str name); ("x", x); ("url", u)]
               (Json.Str name) x u Hw eq_refl eq_refl eq_refl eq_refl
               eq_refl eq_refl).
    rewrite (gated_allowed h x u name can check cb action confirmation Hin Hr).
    reflexivity.
  - each_gated Hin; cbn; intuition discriminate.
  - intros elapsed He. cbn.
    destruct (Z.leb_spec 2000 elapsed); [lia | reflexivity].
Qed.

Lemma answer_before_action_witness :
  turn Example.laptop Example.online
    (command_message "power off" (Json.Str "") (Json.Str ""))
  = (Example.online,
     ([DBusCall SystemBus login1 "CanPowerOff" [];
       AddTimeout 2000 cmd_poweroff;
       WriteMessage 1%nat (response "Powering off")], Ok Continue)).
Proof.
  exact (proj1 (answer_before_action Example.laptop Example.online 1%nat
                  (Json.Str "") (Json.Str "")
                  "power off" can_poweroff "CanPowerOff" cmd_poweroff
                  "PowerOff" "Powering off"
                  ltac:(simpl; tauto) eq_refl eq_refl)).
Defined.

(** *** Fields that are not strings *)

(** X20. A name that is not a string names nothing: a number, a list or
    null in the place of the name is answered "Unknown query" or
    "Unknown command".  An argument that is not a string makes the two
    handlers that call string methods on it, the "open" query and
    "set volume", raise [AttributeError] before they do anything. *)
Theorem fields_not_strings (h : Host) (name x u : Json.value) :
  ((forall s, name <> Json.Str s) ->
   processQuery h name x = ([], Ok "Unknown query")
   /\ processCommand h name x u = ([], Ok "Unknown command"))
  /\ ((forall s, x <> Json.Str s) ->
      processQuery h (Json.Str "open") x = ([], Raise AttributeError)
      /\ processCommand h (Json.Str "set volume") x u
         = ([], Raise AttributeError)).
Proof.
  split.
  - intros Hn. destruct name; try (split; reflexivity).
    exfalso. apply (Hn s). reflexivity.
  - intros Hx. destruct x; try (split; reflexivity).
    exfalso. apply (Hx s). reflexivity.
Qed.

Lemma fields_not_strings_witness :
  processCommand Example.laptop (Json.Int 7) (Json.Str "") (Json.Str "")
  = ([], Ok "Unknown command")
  /\ processCommand Example.laptop (Json.Str "set volume") (Json.Int 55)
       (Json.Str "")
     = ([], Raise AttributeError).
Proof.
  split.
  - apply (proj1 (fields_not_strings Example.laptop (Json.Int 7)
                    (Json.Str "") (Json.Str ""))).
    intros s. discriminate.
  - apply (proj2 (fields_not_strings Example.laptop (Json.Str "")
                    (Json.Int 55) (Json.Str ""))).
    intros s. discriminate.
Defined.

(** *** The process over time *)

Lemma steps_inert (h : Host) (a : Agent.t) (sock : Socket)
  (inputs : list Agent.Input) :
  Agent.reading a = false ->
  ws (Agent.client a) = Some sock ->
  Agent.steps h a inputs = a.
Proof.
  intros Hr Hw. induction inputs as [| i inputs IH]; [reflexivity |].
  unfold Agent.steps. cbn [fold_left].
  assert (Hs : Agent.step h a i = a).
  { destruct i as [hs | r].
    - apply (tick_connected h a hs sock Hw).
    - unfold Agent.step. rewrite Hr. reflexivity. }
  rewrite Hs. exact IH.
Qed.

(** X21. A process that holds a socket and has no read loop stays as it
    is for ever: ticks do not reconnect, because [self.ws] is set, and
    frames are not read, because nothing reads.  It answers nothing and
    does nothing, whatever arrives and however long it runs. *)
Theorem inert_for_ever (h : Host) (a : Agent.t) (sock : Socket)
  (inputs : list Agent.Input) :
  Agent.reading a = false ->
  ws (Agent.client a) = Some sock ->
  Agent.steps h a inputs = a.
Proof. apply steps_inert. Qed.

Lemma inert_for_ever_witness :
  let a := Agent.step Example.laptop (Agent.start (Opened 1%nat) "u")
             (Agent.Recv Example.error_frame) in
  Agent.steps Example.laptop a
    [Agent.Tick (Opened 2%nat);
     Agent.Recv (Example.query_frame "battery" "");
     Agent.Recv EndOfStream; Agent.Tick (Opened 3%nat)]
  = a.
Proof.
  intros a.
  exact (inert_for_ever Example.laptop a 1%nat _ eq_refl eq_refl).
Defined.

(** X22. An exception in a turn of the loop is final.  Whatever raises,
    a frame that is not JSON, a missing field or a handler, the read
    loop is gone, the socket stays in [self.ws], and from then on the
    process is inert: no tick reconnects it and no frame is answered. *)
Theorem exception_is_final (h : Host) (a : Agent.t) (sock : Socket)
  (r : Read) (e : Exn) (inputs : list Agent.Input) :
  Agent.reading a = true ->
  ws (Agent.client a) = Some sock ->
  result (snd (turn h (Agent.client a) r)) = Raise e ->
  let a' := Agent.step h a (Agent.Recv r) in
  Agent.reading a' = false
  /\ Agent.client a' = Agent.client a
  /\ Agent.steps h a' inputs = a'.
Proof.
  intros Hr Hw He a'.
  assert (H : Agent.reading a' = false /\ Agent.client a' = Agent.client a).
  { subst a'. unfold Agent.step. rewrite Hr.
    pose proof (turn_client h (Agent.client a) r) as Ht.
    destruct (turn h (Agent.client a) r) as [c' [tr [ctl | e']]];
      cbn in He; [discriminate He |].
    cbn. auto. }
  destruct H as [H1 H2]. split; [exact H1 | split; [exact H2 |]].
  apply (steps_inert h a' sock inputs H1). rewrite H2. exact Hw.
Qed.

Lemma exception_is_final_witness :
  let h := with_battery Example.laptop None in
  let a := Agent.step h (Agent.start (Opened 1%nat) "u")
             (Agent.Recv (Example.query_frame "battery" "")) in
  Agent.reading a = false
  /\ Agent.client a = Agent.client (Agent.start (Opened 1%nat) "u")
  /\ Agent.steps h a
       [Agent.Tick (Opened 2%nat);
        Agent.Recv (Example.query_frame "memory" "")] = a.
Proof.
  intros h a.
  exact (exception_is_final h (Agent.start (Opened 1%nat) "u") 1%nat
           (Example.query_frame "battery" "") AttributeError
           [Agent.Tick (Opened 2%nat);
            Agent.Recv (Example.query_frame "memory" "")]
           eq_refl eq_refl eq_refl).
Defined.

Lemma failed_tick (h : Host) (a : Agent.t) (hs : Handshake) :
  failing hs = true ->
  ws (Agent.client a) = None ->
  let a' := Agent.step h a (Agent.Tick hs) in
  Agent.client a' = Agent.client a
  /\ Agent.reading a' = Agent.reading a
  /\ Agent.live a' = Agent.live a
  /\ connects (Agent.history a') = S (connects (Agent.history a)).
Proof.
  intros Hf Hw. destruct a as [c rd lv hist]. cbn in Hw.
  unfold Agent.step, keep_alive. cbn [Agent.client]. rewrite Hw.
  destruct hs as [sock | | e]; [discriminate Hf | |];
    cbn; rewrite connects_app; cbn; repeat split; lia.
Qed.

Lemma failed_ticks (h : Host) (ticks : list Handshake) (a : Agent.t) :
  forallb failing ticks = true ->
  ws (Agent.client a) = None ->
  let a' := Agent.steps h a (map Agent.Tick ticks) in
  Agent.client a' = Agent.client a
  /\ Agent.reading a' = Agent.reading a
  /\ Agent.live a' = Agent.live a
  /\ connects (Agent.history a')
     = (connects (Agent.history a) + List.length ticks)%nat.
Proof.
  revert a. induction ticks as [| hs ticks IH]; intros a Hf Hw.
  - cbn. repeat split. lia.
  - cbn in Hf. apply andb_prop in Hf. destruct Hf as [Hhs Hf].
    destruct (failed_tick h a hs Hhs Hw) as [Hc [Hr [Hl Hn]]].
    cbn [map]. unfold Agent.steps. cbn [fold_left].
    fold (Agent.steps h (Agent.step h a (Agent.Tick hs))
            (map Agent.Tick ticks)).
    destruct (IH (Agent.step h a (Agent.Tick hs)) Hf) as [Hc' [Hr' [Hl' Hn']]].
    { rewrite Hc. exact Hw. }
    rewrite Hc', Hr', Hl', Hn', Hc, Hr, Hl, Hn. cbn [List.length].
    repeat split. lia.
Qed.

(** X23. While the server cannot be reached the process tries once at
    its start and once at every tick, without limit and without backing
    off, whether the handshake ends in [HTTPError], which is logged, or in
    another exception; it holds no socket meanwhile, and the first tick
    whose handshake succeeds connects it and starts the read loop. *)
Theorem retried_every_tick (h : Host) (u : string) (first : Handshake)
  (ticks : list Handshake) (sock : Socket) :
  failing first = true ->
  forallb failing ticks = true ->
  let a := Agent.steps h (Agent.start first u) (map Agent.Tick ticks) in
  let a' := Agent.step h a (Agent.Tick (Opened sock)) in
  ws (Agent.client a) = None
  /\ Agent.reading a = false
  /\ Agent.live a = []
  /\ connects (Agent.history a) = S (List.length ticks)
  /\ ws (Agent.client a') = Some sock
  /\ Agent.reading a' = true
  /\ Agent.live a' = [sock]
  /\ connects (Agent.history a') = S (S (List.length ticks)).
Proof.
  intros Hfirst Hticks a a'.
  assert (Hstart : ws (Agent.client (Agent.start first u)) = None
                   /\ Agent.reading (Agent.start first u) = false
                   /\ Agent.live (Agent.start first u) = []
                   /\ connects (Agent.history (Agent.start first u)) = 1%nat).
  { destruct first; [discriminate Hfirst | |]; cbn; auto. }
  destruct Hstart as [Hw [Hr [Hl Hn]]].
  destruct (failed_ticks h ticks (Agent.start first u) Hticks Hw)
    as [Hc' [Hr' [Hl' Hn']]].
  fold a in Hc', Hr', Hl', Hn'.
  assert (Hwa : ws (Agent.client a) = None) by (rewrite Hc'; exact Hw).
  rewrite Hr in Hr'. rewrite Hl in Hl'. rewrite Hn in Hn'.
  split; [exact Hwa |]. split; [exact Hr' |]. split; [exact Hl' |].
  split; [exact Hn' |].
  subst a'. destruct a as [c rd lv hist]. cbn in *.
  unfold keep_alive. rewrite Hwa. cbn. subst lv.
  rewrite connects_app, Hn'. cbn. repeat split. lia.
Qed.

Lemma retried_every_tick_witness :
  let a := Agent.steps Example.laptop (Agent.start HTTPError "u")
             (map Agent.Tick [HTTPError; Refused (OtherError "gaierror")]) in
  ws (Agent.client a) = None
  /\ connects (Agent.history a) = 3%nat
  /\ ws (Agent.client (Agent.step Example.laptop a (Agent.Tick (Opened 4%nat))))
     = Some 4%nat.
Proof.
  intros a.
  destruct (retried_every_tick Example.laptop "u" HTTPError
              [HTTPError; Refused (OtherError "gaierror")] 4%nat
              eq_refl eq_refl) as [H1 [_ [_ [H4 [H5 _]]]]].
  split; [exact H1 | split; [exact H4 | exact H5]].
Defined.

(** *** Frames that are not objects *)

(** X24. A frame that decodes to something else than an object is not
    refused as such.  A number, a boolean or null ends the loop with
    [TypeError]; a string or a list goes through the same tests as an
    object, so it is logged as an unknown message when it has none of
    "error", "query" and "command" in it, and ends the loop with
    [TypeError] when it has one, as a substring or as an element. *)
Theorem non_object_frame (h : Host) (c : WSClient.t) (msg : Json.value) :
  (forall members, msg <> Json.Obj members) ->
  turn h c (Message (Some msg))
  = (c, match msg with
        | Json.Str _ | Json.Arr _ =>
            if mentions_key msg then ([], Raise TypeError)
            else ([Log Warning (TextObject "Unknown message: " msg)],
                  Ok Continue)
        | _ => ([], Raise TypeError)
        end).
Proof.
  intros Hm. unfold turn, dispatch.
  destruct msg as [| b | n | f | s | items | members]; try reflexivity.
  - cbn [py_in mentions_key]. autorewrite with monad.
    destruct (Py.contains "error" s); [reflexivity |].
    autorewrite with monad.
    destruct (Py.contains "query" s); [reflexivity |].
    autorewrite with monad.
    destruct (Py.contains "command" s); reflexivity.
  - cbn [py_in mentions_key]. autorewrite with monad.
    destruct (existsb (fun e => Json.eq_str e "error") items);
      [reflexivity |].
    autorewrite with monad.
    destruct (existsb (fun e => Json.eq_str e "query") items);
      [reflexivity |].
    autorewrite with monad.
    destruct (existsb (fun e => Json.eq_str e "command") items); reflexivity.
  - exfalso. apply (Hm members). reflexivity.
Qed.

Lemma non_object_frame_witness :
  turn Example.laptop Example.online
    (Message (Some (Json.Str "no such error")))
  = (Example.online, ([], Raise TypeError))
  /\ turn Example.laptop Example.online (Message (Some (Json.Str "hello")))
     = (Example.online,
        ([Log Warning (TextObject "Unknown message: " (Json.Str "hello"))],
         Ok Continue)).
Proof.
  split.
  - apply (non_object_frame Example.laptop Example.online
             (Json.Str "no such error")).
    intros members. discriminate.
  - apply (non_object_frame Example.laptop Example.online (Json.Str "hello")).
    intros members. discriminate.
Defined.
